(** * Prediction trading venue: consensus, signals, risk, execution, cycle

    A shallow embedding of the decision logic of
    [scripts/venue_manager.py] (class [AutomatedPredictionVenue] and [main])
    and [scripts/trading_integration.py] (class [PredictionTradingBridge]),
    together with the properties of the specification that concern them.

    Conventions of the embedding.
    - Python [float] values are exact rationals ([Q]); [==] on them is [Qeq].
      Rounding of IEEE doubles is outside the model.
    - Values loaded from JSON configuration files or returned by the external
      trading engine are dynamically typed: they are [pyval]s, and every
      operation on them can raise the exception Python would raise.
    - [try: ... except Exception] is modelled on computations of type
      [M S A := S -> result A * S]: the state reached when the exception was
      raised is kept, as in Python.
    - Methods that the source leaves as placeholders and that the
      specification lists as external collaborators
      ([get_agent_prediction], [get_agent_reputation_weight],
      [get_current_exposure], the trading engine, the wall clock) are
      parameters; the placeholders of the source are given as instances. *)

From Stdlib Require Import Ascii QArith Qabs Lia.
From stdpp Require Import gmap strings list pretty.

#[local] Set Warnings "-register-all".

(** ** Python values, exceptions and the two monads *)

Module Py.

Inductive pyval :=
| PNone
| PBool (b : bool)
| PInt (z : Z)
| PFloat (q : Q)
| PStr (s : string)
| PList (l : list pyval)
| PDict (d : gmap string pyval).

(** Subclasses of [Exception] that the modelled code can meet.
    [BackendError] stands for whatever a collaborator raises. *)
Inductive exn :=
| AttributeError
| TypeError
| KeyError (k : string)
| BackendError (msg : string).

Inductive result (A : Type) :=
| Ok (a : A)
| Raise (e : exn).
Arguments Ok {A} a.
Arguments Raise {A} e.

#[global] Instance result_ret : MRet result := fun A a => Ok a.
#[global] Instance result_bind : MBind result := fun A B f m =>
  match m with
  | Ok a => f a
  | Raise e => Raise e
  end.

(** State and exceptions; the state survives a raise. *)
Definition M (S A : Type) : Type := S -> result A * S.

#[global] Instance M_ret {S} : MRet (M S) := fun A a s => (Ok a, s).
#[global] Instance M_bind {S} : MBind (M S) := fun A B f m s =>
  match m s with
  | (Ok a, s') => f a s'
  | (Raise e, s') => (Raise e, s')
  end.

Definition liftR {S A} (r : result A) : M S A := fun s => (r, s).
Definition get_state {S} : M S S := fun s => (Ok s, s).
Definition modify_state {S} (f : S -> S) : M S unit := fun s => (Ok tt, f s).

(** [try: body except Exception as e: handler e]. *)
Definition try_except {S A} (body : M S A) (handler : exn -> M S A) : M S A :=
  fun s =>
    match body s with
    | (Ok a, s') => (Ok a, s')
    | (Raise e, s') => handler e s'
    end.

(** Numbers: [bool] is a subclass of [int]; everything else is not a number. *)
Definition as_num (v : pyval) : option Q :=
  match v with
  | PBool b => Some (if b then 1 else 0)%Q
  | PInt z => Some (inject_Z z)
  | PFloat q => Some q
  | _ => None
  end.

(** An arithmetic or ordering operation between a number and [v]. *)
Definition py_num (v : pyval) : result Q :=
  match as_num v with
  | Some q => Ok q
  | None => Raise TypeError
  end.

(** [v.get(k, dflt)]: only dictionaries have [get]. *)
Definition py_get (v : pyval) (k : string) (dflt : pyval) : result pyval :=
  match v with
  | PDict d => Ok (default dflt (d !! k))
  | _ => Raise AttributeError
  end.

(** [v[k]] with a string key. *)
Definition py_index (v : pyval) (k : string) : result pyval :=
  match v with
  | PDict d =>
      match d !! k with
      | Some x => Ok x
      | None => Raise (KeyError k)
      end
  | _ => Raise TypeError
  end.

Definition Qlt_bool (x y : Q) : bool := negb (Qle_bool y x).

(** Python's [max(a, b)] and [min(a, b)] on two numbers: the first argument
    is kept unless the second is strictly better. *)
Definition py_max (a b : Q) : Q := if Qlt_bool a b then b else a.
Definition py_min (a b : Q) : Q := if Qlt_bool b a then b else a.

End Py.
Import Py.

(** ** scripts/venue_manager.py *)

Module VenueManager.

Inductive direction := long | short.

(** A market dictionary. [market_id] is the key under which the venue keeps
    it; ["asset"] exists for crypto markets only; ["participants"] is read
    with [market.get("participants", [])]. *)
Record Market := {
  market_id : string;
  market_type : string;
  market_asset : option string;
  participants : option (list string);
  created : Z;
  market_expiry : Z
}.

(** What [get_agent_prediction] returns when it returns something truthy:
    a dictionary with the keys ["signal"] and ["confidence"]. *)
Record AgentPrediction := {
  pred_signal : Q;
  pred_confidence : Q
}.

Record MarketConsensus := {
  asset : string;
  signal_strength : Q;
  confidence : Q;
  agent_count : Z;
  prediction_data : Market;
  timestamp : Z
}.

(** The text
    [f"Prediction consensus: {signal_strength:.2%} with {confidence:.1%} confidence"],
    kept as its two interpolated values. *)
Inductive Reasoning :=
| PredictionConsensus (strength conf : Q).

Record TradingSignal := {
  ts_asset : string;
  ts_direction : direction;
  ts_size : Q;
  ts_confidence : Q;
  ts_reasoning : Reasoning;
  ts_expiry : Z
}.

(** [get_default_config]: the sections the modelled methods read. *)
Definition get_default_config : pyval :=
  PDict (<["market_creation" := PDict (<["auto_create_interval_hours" := PInt 6]>
                                       (<["max_active_markets" := PInt 20]>
                                       (<["market_types" := PList [PStr "crypto_price"; PStr "ai_performance"; PStr "tech_trends"]]> ∅)))]>
        (<["trading" := PDict (<["execution_threshold" := PFloat 0.70]>
                              (<["max_position_size" := PFloat 0.025]>
                              (<["risk_tolerance" := PStr "medium"]> ∅)))]>
        (<["agents" := PDict (<["min_agents_per_market" := PInt 3]>
                             (<["max_agents_per_market" := PInt 10]>
                             (<["reputation_weight" := PFloat 0.4]> ∅)))]>
        (<["venue" := PDict (<["market_maker_fee" := PFloat 0.002]>
                            (<["performance_fee" := PFloat 0.30]>
                            (<["min_liquidity" := PFloat 1000.0]> ∅)))]> ∅)))).

(** The placeholders of the source:
    [async def get_agent_prediction(self, agent_id, market_id): pass] and
    [def get_agent_reputation_weight(self, agent_id): return 1.0]. *)
Definition get_agent_prediction_stub (agent_id market_id : string) : option AgentPrediction := None.
Definition get_agent_reputation_weight_stub (agent_id : string) : Q := 1.0%Q.

Section Venue.

Variable get_agent_prediction : string -> string -> option AgentPrediction.
Variable get_agent_reputation_weight : string -> Q.
(** [datetime.now()], in seconds. *)
Variable now : Z.

(** The three accumulators of the loop of [calculate_crypto_consensus]:
    [total_weight], [weighted_signal], [confidence_sum]. *)
Record Acc := {
  total_weight : Q;
  weighted_signal : Q;
  confidence_sum : Q
}.

(** One iteration of [for agent_id in participants]. *)
Definition accumulate (mid : string) (acc : Acc) (agent_id : string) : Acc :=
  match get_agent_prediction agent_id mid with
  | Some agent_prediction =>
      let weight := get_agent_reputation_weight agent_id in
      {| total_weight := total_weight acc + weight;
         weighted_signal := weighted_signal acc + pred_signal agent_prediction * weight;
         confidence_sum := confidence_sum acc + pred_confidence agent_prediction * weight |}
  | None => acc
  end.

Definition calculate_crypto_consensus (market : Market) : result (option MarketConsensus) :=
  let ps := default [] (participants market) in
  if (length ps <? 2)%nat then Ok None
  else
    let acc := fold_left (accumulate (market_id market)) ps
                 {| total_weight := 0; weighted_signal := 0; confidence_sum := 0 |} in
    if Qeq_bool (total_weight acc) 0 then Ok None
    else
      match market_asset market with
      | None => Raise (KeyError "asset")
      | Some a =>
          Ok (Some {| asset := a;
                      signal_strength := weighted_signal acc / total_weight acc;
                      confidence := confidence_sum acc / total_weight acc;
                      agent_count := Z.of_nat (length ps);
                      prediction_data := market;
                      timestamp := now |})
      end.

(** [aggregate_consensus]: the active markets in the order of the
    dictionary, crypto markets only, markets without consensus skipped. *)
Fixpoint aggregate_consensus (active_markets : list (string * Market))
  : result (list MarketConsensus) :=
  match active_markets with
  | [] => Ok []
  | (_, market) :: rest =>
      if String.eqb (market_type market) "crypto_price" then
        consensus ← calculate_crypto_consensus market;
        consensus_data ← aggregate_consensus rest;
        Ok (match consensus with
            | Some c => c :: consensus_data
            | None => consensus_data
            end)
      else aggregate_consensus rest
  end.

(** [calculate_position_size(self, consensus)] of the venue:
    [min(position_size, max_size)], capped from above only. *)
Definition calculate_position_size (config : pyval) (consensus : MarketConsensus) : result Q :=
  trading ← py_index config "trading";
  max_size_v ← py_index trading "max_position_size";
  max_size ← py_num max_size_v;
  let confidence_factor := confidence consensus in
  let signal_strength_factor := Qabs (signal_strength consensus) in
  let position_size := (max_size * confidence_factor * signal_strength_factor)%Q in
  Ok (py_min position_size max_size).

(** The body of the loop of [generate_signals] for one consensus. *)
Definition signal_for (config : pyval) (execution_threshold : pyval) (consensus : MarketConsensus)
  : result (option TradingSignal) :=
  thr ← py_num execution_threshold;
  if Qle_bool thr (confidence consensus) then
    sz ← calculate_position_size config consensus;
    Ok (Some {| ts_asset := asset consensus;
                ts_direction := if Qlt_bool 0 (signal_strength consensus) then long else short;
                ts_size := sz;
                ts_confidence := confidence consensus;
                ts_reasoning := PredictionConsensus (signal_strength consensus) (confidence consensus);
                ts_expiry := (now + 24 * 3600)%Z |})
  else Ok None.

Fixpoint generate_signals_loop (config : pyval) (execution_threshold : pyval)
  (consensus_data : list MarketConsensus) : result (list TradingSignal) :=
  match consensus_data with
  | [] => Ok []
  | consensus :: rest =>
      s ← signal_for config execution_threshold consensus;
      signals ← generate_signals_loop config execution_threshold rest;
      Ok (match s with
          | Some sig => sig :: signals
          | None => signals
          end)
  end.

Definition generate_signals (config : pyval) (consensus_data : list MarketConsensus)
  : result (list TradingSignal) :=
  trading ← py_index config "trading";
  execution_threshold ← py_index trading "execution_threshold";
  generate_signals_loop config execution_threshold consensus_data.

(** *** The cycle and the main loop *)

(** The fields of the venue object that the cycle reads and writes. *)
Record Venue := {
  config : pyval;
  active_markets : list (string * Market);
  trading_signals : list TradingSignal;
  venue_stats : pyval
}.

Inductive Phase :=
| MarketManagement
| AgentCoordination
| ConsensusGeneration
| SignalGeneration
| TradeExecution
| PerformanceUpdate.

(** Of the log, the model keeps the first message of each phase and the
    messages of [run_venue_cycle] and [main]. *)
Inductive Message :=
| StartingVenueCycle
| PhaseStarted (ph : Phase)
| VenueCycleCompleted
| VenueCycleFailed (e : exn)
| VenueError (e : exn)
| ShuttingDown.

(** What the process does that can be observed from outside. *)
Inductive Event :=
| Log (m : Message)
| Sleep (seconds : Z).

Record Process := {
  self : Venue;
  events : list Event
}.

Definition emit (ev : Event) : M Process unit :=
  modify_state (fun p => {| self := self p; events := events p ++ [ev] |}).

Definition on_venue {A} (m : M Venue A) : M Process A := fun p =>
  let '(r, v) := m (self p) in
  (r, {| self := v; events := events p |}).

(** The parts of the cycle that reach the clock, the price feed, the agents
    or the file system. *)
Variable manage_markets_body : M Venue unit.
Variable coordinate_agents_body : M Venue unit.
Variable update_metrics_body : M Venue unit.
(** [self.execution_engine.execute_signal]. *)
Variable execute_signal : TradingSignal -> result bool.

Definition manage_markets : M Process unit :=
  emit (Log (PhaseStarted MarketManagement));;
  on_venue manage_markets_body.

Definition coordinate_agents : M Process unit :=
  emit (Log (PhaseStarted AgentCoordination));;
  on_venue coordinate_agents_body.

Definition aggregate_consensus_phase : M Process (list MarketConsensus) :=
  emit (Log (PhaseStarted ConsensusGeneration));;
  p ← get_state;
  liftR (aggregate_consensus (active_markets (self p))).

Definition generate_signals_phase (consensus_data : list MarketConsensus)
  : M Process (list TradingSignal) :=
  emit (Log (PhaseStarted SignalGeneration));;
  p ← get_state;
  signals ← liftR (generate_signals (config (self p)) consensus_data);
  on_venue (modify_state (fun v =>
    {| config := config v; active_markets := active_markets v;
       trading_signals := signals; venue_stats := venue_stats v |}));;
  mret signals.

(** The loop of [execute_trades]; its value is [executed_count]. *)
Fixpoint execute_trades_loop (signals : list TradingSignal) (executed_count : Z) : M Process Z :=
  match signals with
  | [] => mret executed_count
  | signal :: rest =>
      n ← try_except
            (ok ← liftR (execute_signal signal);
             mret (if ok : bool then executed_count + 1 else executed_count)%Z)
            (fun e => mret executed_count);
      execute_trades_loop rest n
  end.

Definition execute_trades (signals : list TradingSignal) : M Process unit :=
  emit (Log (PhaseStarted TradeExecution));;
  execute_trades_loop signals 0%Z;;
  mret tt.

Definition update_metrics : M Process unit :=
  emit (Log (PhaseStarted PerformanceUpdate));;
  on_venue update_metrics_body.

Definition run_venue_cycle : M Process unit :=
  emit (Log StartingVenueCycle);;
  try_except
    (manage_markets;;
     coordinate_agents;;
     consensus_data ← aggregate_consensus_phase;
     signals ← generate_signals_phase consensus_data;
     execute_trades signals;;
     update_metrics;;
     emit (Log VenueCycleCompleted))
    (fun e =>
       emit (Log (VenueCycleFailed e));;
       liftR (Raise e)).

Inductive LoopState := Running | Stopped.

(** One turn of [while True] in [main]. [interrupt] tells whether a
    [KeyboardInterrupt] reaches this turn; it is not an [Exception] and only
    the first handler of [main] takes it. *)
Definition main_iteration (interrupt : bool) (p : Process) : LoopState * Process :=
  if interrupt then (Stopped, snd (emit (Log ShuttingDown) p))
  else
    match run_venue_cycle p with
    | (Ok _, p') => (Running, snd (emit (Sleep (30 * 60)) p'))
    | (Raise e, p') => (Running, snd ((emit (Log (VenueError e));; emit (Sleep 60)) p'))
    end.

(** [main], for as many turns as [interrupts] describes. *)
Fixpoint main_loop (interrupts : list bool) (p : Process) : LoopState * Process :=
  match interrupts with
  | [] => (Running, p)
  | i :: rest =>
      match main_iteration i p with
      | (Running, p') => main_loop rest p'
      | (Stopped, p') => (Stopped, p')
      end
  end.

End Venue.

End VenueManager.

(** ** scripts/trading_integration.py *)

Module TradingIntegration.

Inductive direction := long | short.

(** A consensus dictionary handed to the bridge. The four keys that
    [validate_consensus] requires may be absent. *)
Module Consensus.
Record t := {
  asset : option string;
  signal_strength : option Q;
  confidence : option Q;
  agent_count : option Z;
  prediction_data : option pyval
}.
End Consensus.

(** The text of the ['reasoning'] entry, kept as its interpolated values. *)
Inductive Reasoning :=
| PredictionConsensus (strength conf : Q) (agents : Z).

(** The dictionary built by [create_trading_signal]. *)
Module Signal.
Record t := {
  id : string;
  source : string;
  timestamp : Z;
  trading_pair : string;
  direction : TradingIntegration.direction;
  size : Q;
  confidence : Q;
  signal_strength : Q;
  entry_type : string;
  stop_loss : pyval;
  take_profit : pyval;
  reasoning : Reasoning;
  prediction_data : Consensus.t;
  expiry : Z
}.
End Signal.

(** The text of the ['reason'] entry of a risk decision. *)
Inductive Reason :=
| MaximumExposureReached (current_exposure : Z) (max_exposure : pyval)
| PositionSizeExceedsLimit (size : Q) (max_position : pyval)
| TradeApproved
| RiskAssessmentError (e : exn).

(** The dictionary returned by [assess_trade_risk]; the rejections carry no
    ['stop_loss'] and no ['take_profit'] key. *)
Record RiskDecision := {
  approved : bool;
  reason : Reason;
  stop_loss : option pyval;
  take_profit : option pyval
}.

(** [trade_params] of [execute_single_trade]. *)
Record TradeParams := {
  symbol : string;
  side : direction;
  tp_size : Q;
  order_type : string;
  tp_stop_loss : pyval;
  tp_take_profit : pyval;
  tp_source : string
}.

(** The dictionary returned by [execute_single_trade]. *)
Record TradeResult := {
  success : bool;
  trade_id : option pyval;
  executed_price : option pyval;
  volume : option pyval;
  error : option exn;
  tr_timestamp : Z
}.

Inductive TradeStatus := open | profitable.

Record TradeRecord := {
  rec_id : string;
  rec_prediction_data : Consensus.t;
  execution_data : TradeResult;
  opened_at : Z;
  status : TradeStatus;
  pnl : Q
}.

Record PerformanceMetrics := {
  total_signals : Z;
  executed_trades : Z;
  profitable_trades : Z;
  total_pnl : Q;
  accuracy_rate : Q;
  avg_hold_time : Q
}.

(** [execution_results] of [execute_prediction_trades]. *)
Record ExecutionResults := {
  successful : Z;
  failed : Z;
  total_volume : Q;
  trades : list TradeResult
}.

(** The bridge object. [submitted] is the state of [self.trading_engine]
    that the model observes: the orders passed to [execute_trade], oldest
    first. *)
Record Bridge := {
  venue_config : pyval;
  trading_config : pyval;
  prediction_trades : list TradeRecord;
  performance_metrics : PerformanceMetrics;
  submitted : list TradeParams
}.

(** [__init__], once both configurations are loaded. *)
Definition init (venue_cfg trading_cfg : pyval) : Bridge :=
  {| venue_config := venue_cfg;
     trading_config := trading_cfg;
     prediction_trades := [];
     performance_metrics :=
       {| total_signals := 0; executed_trades := 0; profitable_trades := 0;
          total_pnl := 0; accuracy_rate := 0; avg_hold_time := 0 |};
     submitted := [] |}.

(** [get_default_trading_config]. *)
Definition get_default_trading_config : pyval :=
  PDict (<["risk_management" := PDict (<["max_position_size" := PFloat 0.02]>
                                      (<["stop_loss" := PFloat 0.015]>
                                      (<["take_profit" := PFloat 0.03]> ∅)))]>
        (<["execution" := PDict (<["order_type" := PStr "market"]>
                                (<["slippage_tolerance" := PFloat 0.005]> ∅))]>
        (<["portfolio" := PDict (<["max_positions" := PInt 5]>
                                (<["correlation_limit" := PFloat 0.7]> ∅))]> ∅))).

(** [str.upper] on ASCII text. Python folds the letters outside ASCII too
    (U+017F becomes S); this model leaves their bytes as they are, so it
    is the source's function on ASCII strings only. *)
Definition upper_ascii (c : ascii) : ascii :=
  let n := nat_of_ascii c in
  if ((97 <=? n) && (n <=? 122))%nat then ascii_of_nat (n - 32) else c.

Fixpoint upper (s : string) : string :=
  match s with
  | EmptyString => EmptyString
  | String c rest => String (upper_ascii c) (upper rest)
  end.

Definition asset_mapping : gmap string string :=
  <["BTC" := "BTC-USDT"]> (<["ETH" := "ETH-USDT"]> (<["SOL" := "SOL-USDT"]>
  (<["ARB" := "ARB-USDT"]> (<["AVAX" := "AVAX-USDT"]> ∅)))).

Definition map_asset_to_pair (asset : string) : option string :=
  asset_mapping !! upper asset.

(** The placeholder of the source:
    [async def get_current_exposure(self, trading_pair): return 0]. *)
Definition get_current_exposure_mock (trading_pair : string) : result Z := Ok 0%Z.

(** [MockTradingEngine.execute_trade]. *)
Definition mock_execute_trade (now : Z) (trade_params : TradeParams) : result pyval :=
  Ok (PDict (<["trade_id" := PStr ("mock_" +:+ pretty now)]>
            (<["price" := PFloat 100.0]>
            (<["volume" := PFloat (tp_size trade_params * 1000)]> ∅)))).

Section Bridge.

(** The position lookup behind [get_current_exposure]. *)
Variable get_current_exposure : string -> result Z.
(** [self.trading_engine.execute_trade]. *)
Variable execute_trade : TradeParams -> result pyval.
(** [datetime.now()], in seconds. *)
Variable now : Z.

(** [self.<cfg>.get(section, {}).get(key, dflt)]. *)
Definition config_get (cfg : pyval) (section key : string) (dflt : pyval) : result pyval :=
  sec ← py_get cfg section (PDict ∅);
  py_get sec key dflt.

Definition validate_consensus (consensus : Consensus.t) : M Bridge bool :=
  match Consensus.asset consensus, Consensus.signal_strength consensus,
        Consensus.confidence consensus, Consensus.agent_count consensus with
  | Some _, Some _, Some conf, Some agents =>
      self ← get_state;
      min_confidence ← liftR (config_get (venue_config self) "trading" "execution_threshold" (PFloat 0.7));
      mc ← liftR (py_num min_confidence);
      if Qlt_bool conf mc then mret false
      else
        min_agents ← liftR (config_get (venue_config self) "agents" "min_agents_per_market" (PInt 3));
        ma ← liftR (py_num min_agents);
        if Qlt_bool (inject_Z agents) ma then mret false
        else mret true
  | _, _, _, _ => mret false
  end.

Definition calculate_position_size (signal_strength confidence : Q) : M Bridge Q :=
  self ← get_state;
  base_size_v ← liftR (config_get (venue_config self) "trading" "max_position_size" (PFloat 0.025));
  base_size ← liftR (py_num base_size_v);
  let strength_factor := Qabs signal_strength in
  let confidence_factor := confidence in
  let position_size := (base_size * strength_factor * confidence_factor)%Q in
  let min_size := (base_size * 0.25)%Q in
  let max_size := (base_size * 1.0)%Q in
  mret (py_max min_size (py_min position_size max_size)).

(** The statements under [try] in [assess_trade_risk]. *)
Definition assess_trade_risk_body (trading_pair : string) (dir : direction) (size : Q)
  : M Bridge RiskDecision :=
  current_exposure ← liftR (get_current_exposure trading_pair);
  self ← get_state;
  max_exposure ← liftR (config_get (trading_config self) "portfolio" "max_positions" (PInt 5));
  me ← liftR (py_num max_exposure);
  if Qle_bool me (inject_Z current_exposure) then
    mret {| approved := false;
            reason := MaximumExposureReached current_exposure max_exposure;
            stop_loss := None; take_profit := None |}
  else
    max_position ← liftR (config_get (trading_config self) "risk_management" "max_position_size" (PFloat 0.02));
    mp ← liftR (py_num max_position);
    if Qlt_bool mp size then
      mret {| approved := false;
              reason := PositionSizeExceedsLimit size max_position;
              stop_loss := None; take_profit := None |}
    else
      stop_loss_pct ← liftR (config_get (trading_config self) "risk_management" "stop_loss" (PFloat 0.015));
      take_profit_pct ← liftR (config_get (trading_config self) "risk_management" "take_profit" (PFloat 0.03));
      mret {| approved := true;
              reason := TradeApproved;
              stop_loss := Some stop_loss_pct; take_profit := Some take_profit_pct |}.

(** The [except Exception as e] clause of [assess_trade_risk]. *)
Definition risk_error (e : exn) : RiskDecision :=
  {| approved := false;
     reason := RiskAssessmentError e;
     stop_loss := None; take_profit := None |}.

Definition assess_trade_risk (trading_pair : string) (dir : direction) (size : Q)
  : M Bridge RiskDecision :=
  try_except (assess_trade_risk_body trading_pair dir size)
             (fun e => mret (risk_error e)).

(** [d[k]] on a dictionary of the model whose key may be absent. *)
Definition item {S A} (k : string) (o : option A) : M S A :=
  match o with
  | Some a => mret a
  | None => liftR (Raise (KeyError k))
  end.

Definition create_trading_signal (consensus : Consensus.t) : M Bridge (option Signal.t) :=
  asset ← item "asset" (Consensus.asset consensus);
  signal_strength ← item "signal_strength" (Consensus.signal_strength consensus);
  confidence ← item "confidence" (Consensus.confidence consensus);
  match map_asset_to_pair asset with
  | None => mret None
  | Some trading_pair =>
      let dir := if Qlt_bool 0 signal_strength then long else short in
      position_size ← calculate_position_size signal_strength confidence;
      risk_assessment ← assess_trade_risk trading_pair dir position_size;
      if negb (approved risk_assessment) then mret None
      else
        sl ← item "stop_loss" (stop_loss risk_assessment);
        tp ← item "take_profit" (take_profit risk_assessment);
        agents ← item "agent_count" (Consensus.agent_count consensus);
        mret (Some {| Signal.id := "pred_" +:+ asset +:+ "_" +:+ pretty now;
                      Signal.source := "prediction_venue";
                      Signal.timestamp := now;
                      Signal.trading_pair := trading_pair;
                      Signal.direction := dir;
                      Signal.size := position_size;
                      Signal.confidence := confidence;
                      Signal.signal_strength := Qabs signal_strength;
                      Signal.entry_type := "market";
                      Signal.stop_loss := sl;
                      Signal.take_profit := tp;
                      Signal.reasoning := PredictionConsensus signal_strength confidence agents;
                      Signal.prediction_data := consensus;
                      Signal.expiry := (now + 24 * 3600)%Z |})
  end.

(** The body of the loop of [process_prediction_signals]: what one
    consensus adds to [trading_signals]. *)
Definition process_one (consensus : Consensus.t) : M Bridge (option Signal.t) :=
  try_except
    (valid ← validate_consensus consensus;
     if negb valid then mret None
     else create_trading_signal consensus)
    (fun e => mret None).

Fixpoint process_prediction_signals (consensus_data : list Consensus.t)
  : M Bridge (list Signal.t) :=
  match consensus_data with
  | [] => mret []
  | consensus :: rest =>
      s ← process_one consensus;
      trading_signals ← process_prediction_signals rest;
      mret (match s with
            | Some sig => sig :: trading_signals
            | None => trading_signals
            end)
  end.

(** Calling the engine: the order reaches the engine, which answers or
    raises. *)
Definition call_engine (trade_params : TradeParams) : M Bridge pyval :=
  modify_state (fun self =>
    {| venue_config := venue_config self;
       trading_config := trading_config self;
       prediction_trades := prediction_trades self;
       performance_metrics := performance_metrics self;
       submitted := submitted self ++ [trade_params] |});;
  liftR (execute_trade trade_params).

Definition execute_single_trade (signal : Signal.t) : M Bridge TradeResult :=
  try_except
    (let trade_params :=
       {| symbol := Signal.trading_pair signal;
          side := Signal.direction signal;
          tp_size := Signal.size signal;
          order_type := Signal.entry_type signal;
          tp_stop_loss := Signal.stop_loss signal;
          tp_take_profit := Signal.take_profit signal;
          tp_source := "prediction_venue" |} in
     result ← call_engine trade_params;
     tid ← liftR (py_get result "trade_id" PNone);
     price ← liftR (py_get result "price" PNone);
     vol ← liftR (py_get result "volume" (PInt 0));
     mret {| success := true;
             trade_id := Some tid;
             executed_price := Some price;
             volume := Some vol;
             error := None;
             tr_timestamp := now |})
    (fun e =>
       mret {| success := false;
               trade_id := None;
               executed_price := None;
               volume := None;
               error := Some e;
               tr_timestamp := now |}).

Definition track_prediction_trade (signal : Signal.t) (execution_result : TradeResult)
  : M Bridge unit :=
  let trade_record :=
    {| rec_id := Signal.id signal;
       rec_prediction_data := Signal.prediction_data signal;
       execution_data := execution_result;
       opened_at := now;
       status := open;
       pnl := 0 |} in
  modify_state (fun self =>
    {| venue_config := venue_config self;
       trading_config := trading_config self;
       prediction_trades := prediction_trades self ++ [trade_record];
       performance_metrics := performance_metrics self;
       submitted := submitted self |}).

Definition update_performance_metrics (execution_results : ExecutionResults) : M Bridge unit :=
  modify_state (fun self =>
    let pm := performance_metrics self in
    let total := (total_signals pm + Z.of_nat (length (trades execution_results)))%Z in
    let executed := (executed_trades pm + successful execution_results)%Z in
    {| venue_config := venue_config self;
       trading_config := trading_config self;
       prediction_trades := prediction_trades self;
       performance_metrics :=
         {| total_signals := total;
            executed_trades := executed;
            profitable_trades := profitable_trades pm;
            total_pnl := total_pnl pm;
            accuracy_rate :=
              if (0 <? total)%Z then (inject_Z executed / inject_Z total)%Q
              else accuracy_rate pm;
            avg_hold_time := avg_hold_time pm |};
       submitted := submitted self |}).

(** The frame of [execute_prediction_trades]: the bridge and the local
    dictionary [execution_results] that the loop updates in place. *)
Record Frame := {
  self_ : Bridge;
  execution_results : ExecutionResults
}.

Definition on_self {A} (m : M Bridge A) : M Frame A := fun fr =>
  let '(r, b) := m (self_ fr) in
  (r, {| self_ := b; execution_results := execution_results fr |}).

Definition update_results (f : ExecutionResults -> ExecutionResults) : M Frame unit :=
  modify_state (fun fr =>
    {| self_ := self_ fr; execution_results := f (execution_results fr) |}).

Definition incr_successful (er : ExecutionResults) : ExecutionResults :=
  {| successful := successful er + 1; failed := failed er;
     total_volume := total_volume er; trades := trades er |}.

Definition incr_failed (er : ExecutionResults) : ExecutionResults :=
  {| successful := successful er; failed := failed er + 1;
     total_volume := total_volume er; trades := trades er |}.

Definition add_volume (v : Q) (er : ExecutionResults) : ExecutionResults :=
  {| successful := successful er; failed := failed er;
     total_volume := total_volume er + v; trades := trades er |}.

Definition append_trade (r : TradeResult) (er : ExecutionResults) : ExecutionResults :=
  {| successful := successful er; failed := failed er;
     total_volume := total_volume er; trades := trades er ++ [r] |}.

(** The body of [for signal in trading_signals] with its [try]. *)
Definition execute_one (signal : Signal.t) : M Frame unit :=
  try_except
    (result ← on_self (execute_single_trade signal);
     if success result then
       update_results incr_successful;;
       v ← liftR (py_num (default (PInt 0) (volume result)));
       update_results (add_volume v);;
       update_results (append_trade result);;
       on_self (track_prediction_trade signal result)
     else
       update_results incr_failed)
    (fun e => update_results incr_failed).

Fixpoint execute_loop (trading_signals : list Signal.t) : M Frame unit :=
  match trading_signals with
  | [] => mret tt
  | signal :: rest => execute_one signal;; execute_loop rest
  end.

Definition execute_prediction_trades (trading_signals : list Signal.t)
  : M Bridge ExecutionResults := fun self =>
  let fr0 := {| self_ := self;
                execution_results :=
                  {| successful := 0; failed := 0; total_volume := 0; trades := [] |} |} in
  match execute_loop trading_signals fr0 with
  | (Ok _, fr) =>
      (update_performance_metrics (execution_results fr);; mret (execution_results fr)) (self_ fr)
  | (Raise e, fr) => (Raise e, self_ fr)
  end.

End Bridge.

End TradingIntegration.

(** * Properties of the venue manager *)

Module VenueProps.
Import VenueManager.

(** ** Consensus aggregation as a weighted mean *)

Section Aggregation.

Variable get_agent_prediction : string -> string -> option AgentPrediction.
Variable get_agent_reputation_weight : string -> Q.
Variable now : Z.

(** The contributing predictions among the participants [ps] of market
    [mid], each with the reputation weight of its agent: the participants
    whose prediction is retrieved. *)
Fixpoint contributing (mid : string) (ps : list string) : list (AgentPrediction * Q) :=
  match ps with
  | [] => []
  | agent_id :: rest =>
      match get_agent_prediction agent_id mid with
      | Some p => (p, get_agent_reputation_weight agent_id) :: contributing mid rest
      | None => contributing mid rest
      end
  end.

Definition retrieved (market : Market) : list (AgentPrediction * Q) :=
  contributing (market_id market) (default [] (participants market)).

(** Σ weight_i and Σ f(prediction_i) · weight_i, as the specification
    writes them. *)
Fixpoint sum_weights (r : list (AgentPrediction * Q)) : Q :=
  match r with
  | [] => 0
  | (_, w) :: rest => w + sum_weights rest
  end.

Fixpoint sum_weighted (f : AgentPrediction -> Q) (r : list (AgentPrediction * Q)) : Q :=
  match r with
  | [] => 0
  | (p, w) :: rest => f p * w + sum_weighted f rest
  end.

Definition nonneg_weights (r : list (AgentPrediction * Q)) : Prop :=
  Forall (fun pw => 0 <= snd pw)%Q r.

Definition in_range (r : list (AgentPrediction * Q)) : Prop :=
  Forall (fun pw => (-1 <= pred_signal (fst pw) <= 1)%Q /\
                    (0 <= pred_confidence (fst pw) <= 1)%Q) r.

Lemma fold_accumulate (mid : string) (ps : list string) (acc : Acc) :
  let acc' := fold_left (accumulate get_agent_prediction get_agent_reputation_weight mid) ps acc in
  (total_weight acc' == total_weight acc + sum_weights (contributing mid ps))%Q /\
  (weighted_signal acc' == weighted_signal acc + sum_weighted pred_signal (contributing mid ps))%Q /\
  (confidence_sum acc' == confidence_sum acc + sum_weighted pred_confidence (contributing mid ps))%Q.
Proof.
  revert acc. induction ps as [|a ps IH]; intros acc; simpl.
  - split; [|split]; ring.
  - unfold accumulate at 2 4 6.
    destruct (get_agent_prediction a mid) as [p|]; simpl.
    + destruct (IH {| total_weight := total_weight acc + get_agent_reputation_weight a;
                      weighted_signal := weighted_signal acc + pred_signal p * get_agent_reputation_weight a;
                      confidence_sum := confidence_sum acc + pred_confidence p * get_agent_reputation_weight a |})
        as (H1 & H2 & H3).
      simpl in H1, H2, H3. rewrite H1, H2, H3. split; [|split]; ring.
    + apply IH.
Qed.

Lemma sum_weights_nonneg r : nonneg_weights r -> (0 <= sum_weights r)%Q.
Proof.
  induction 1 as [|[p w] r Hw _ IH]; simpl in *.
  - apply Qle_refl.
  - replace 0%Q with (0 + 0)%Q by reflexivity. now apply Qplus_le_compat.
Qed.

(** A weighted sum of values between [lo] and [hi] lies between [lo] and
    [hi] times the total weight. *)
Lemma sum_weighted_bounds (f : AgentPrediction -> Q) (lo hi : Q) r :
  nonneg_weights r ->
  Forall (fun pw => lo <= f (fst pw) <= hi)%Q r ->
  (lo * sum_weights r <= sum_weighted f r <= hi * sum_weights r)%Q.
Proof.
  intros Hw Hr. induction r as [|[p w] r IH]; simpl.
  - split; rewrite Qmult_0_r; apply Qle_refl.
  - inversion Hw as [|? ? Hw0 Hw']; subst. inversion Hr as [|? ? [Hlo Hhi] Hr']; subst.
    simpl in *. destruct (IH Hw' Hr') as [IHlo IHhi]. split.
    + rewrite Qmult_plus_distr_r. apply Qplus_le_compat; [|exact IHlo].
      now apply Qmult_le_compat_r.
    + rewrite Qmult_plus_distr_r. apply Qplus_le_compat; [|exact IHhi].
      now apply Qmult_le_compat_r.
Qed.

Lemma mean_bounds (lo hi s w : Q) :
  (0 < w)%Q -> (lo * w <= s <= hi * w)%Q -> (lo <= s / w <= hi)%Q.
Proof.
  intros Hw [Hlo Hhi]. split.
  - now apply Qle_shift_div_l.
  - now apply Qle_shift_div_r.
Qed.

Abbreviation calculate := (calculate_crypto_consensus get_agent_prediction get_agent_reputation_weight now).
Abbreviation aggregate := (aggregate_consensus get_agent_prediction get_agent_reputation_weight now).

Lemma calculate_unfold (market : Market) :
  let ps := default [] (participants market) in
  let acc := fold_left (accumulate get_agent_prediction get_agent_reputation_weight (market_id market)) ps
               {| total_weight := 0; weighted_signal := 0; confidence_sum := 0 |} in
  (total_weight acc == sum_weights (retrieved market))%Q /\
  (weighted_signal acc == sum_weighted pred_signal (retrieved market))%Q /\
  (confidence_sum acc == sum_weighted pred_confidence (retrieved market))%Q.
Proof.
  intros ps acc.
  destruct (fold_accumulate (market_id market) ps
              {| total_weight := 0; weighted_signal := 0; confidence_sum := 0 |})
    as (H1 & H2 & H3).
  simpl in H1, H2, H3. unfold retrieved. fold ps.
  rewrite Qplus_0_l in H1, H2, H3. auto.
Qed.

Lemma zero_weight_no_consensus (market : Market) :
  (sum_weights (retrieved market) == 0)%Q -> calculate market = Ok None.
Proof.
  intros Hz. unfold calculate_crypto_consensus.
  destruct (length (default [] (participants market)) <? 2)%nat; [reflexivity|].
  destruct (calculate_unfold market) as (H1 & _ & _).
  rewrite <- H1 in Hz. apply Qeq_bool_iff in Hz. now rewrite Hz.
Qed.

Lemma few_participants_no_consensus (market : Market) :
  (length (default [] (participants market)) < 2)%nat -> calculate market = Ok None.
Proof.
  intros Hlen. unfold calculate_crypto_consensus.
  apply Nat.ltb_lt in Hlen. now rewrite Hlen.
Qed.

(** C3. With at least two participants (the participants check of C4) and an asset, a
    market whose retrieved predictions have total weight Σ w > 0 gets the
    consensus with signal strength Σ(signal·w)/Σ w and confidence
    Σ(confidence·w)/Σ w; a total weight of 0 gives no consensus, and nothing
    is divided; with non-negative weights, signals in [-1,1] and confidences
    in [0,1], the two aggregates lie in [-1,1] and [0,1]. *)
Theorem consensus_is_weighted_mean (market : Market) :
  let r := retrieved market in
  ((sum_weights r == 0)%Q -> calculate market = Ok None) /\
  ((2 <= length (default [] (participants market)))%nat ->
   forall a, market_asset market = Some a ->
   (0 < sum_weights r)%Q ->
   exists mc,
     calculate market = Ok (Some mc) /\
     (signal_strength mc == sum_weighted pred_signal r / sum_weights r)%Q /\
     (confidence mc == sum_weighted pred_confidence r / sum_weights r)%Q /\
     (nonneg_weights r -> in_range r ->
      (-1 <= signal_strength mc <= 1)%Q /\ (0 <= confidence mc <= 1)%Q)).
Proof.
  intros r. split; [apply zero_weight_no_consensus|].
  intros Hlen a Ha Hpos.
  destruct (calculate_unfold market) as (H1 & H2 & H3).
  unfold calculate_crypto_consensus.
  apply Nat.ltb_ge in Hlen. rewrite Hlen.
  set (acc := fold_left _ _ _) in *.
  destruct (Qeq_bool (total_weight acc) 0) eqn:Hz.
  { apply Qeq_bool_iff in Hz. rewrite H1 in Hz. fold r in Hz.
    rewrite Hz in Hpos. now apply Qlt_irrefl in Hpos. }
  rewrite Ha. eexists. split; [reflexivity|]. simpl.
  fold r in H1, H2, H3.
  assert (Hs : (weighted_signal acc / total_weight acc == sum_weighted pred_signal r / sum_weights r)%Q)
    by now rewrite H1, H2.
  assert (Hc : (confidence_sum acc / total_weight acc == sum_weighted pred_confidence r / sum_weights r)%Q)
    by now rewrite H1, H3.
  split; [exact Hs|]. split; [exact Hc|].
  intros Hw Hr. rewrite Hs, Hc. split.
  - apply mean_bounds; [exact Hpos|].
    apply sum_weighted_bounds; [exact Hw|].
    eapply Forall_impl; [exact Hr|]. now intros pw [? _].
  - apply mean_bounds; [exact Hpos|].
    apply sum_weighted_bounds; [exact Hw|].
    eapply Forall_impl; [exact Hr|]. now intros pw [_ ?].
Qed.

(** ** Markets without consensus *)

Lemma aggregate_skips (market : Market) :
  calculate market = Ok None ->
  forall before mid after,
    aggregate (before ++ (mid, market) :: after) = aggregate (before ++ after).
Proof.
  intros Hnone before mid after.
  induction before as [|[k m] before IH]; simpl.
  - rewrite Hnone. destruct (String.eqb _ _); [|reflexivity].
    simpl. now destruct (aggregate after).
  - now rewrite IH.
Qed.

Lemma aggregate_sources (markets : list (string * Market)) (consensus_data : list MarketConsensus) :
  aggregate markets = Ok consensus_data ->
  forall mc, In mc consensus_data ->
    calculate (prediction_data mc) = Ok (Some mc).
Proof.
  revert consensus_data. induction markets as [|[k m] markets IH]; simpl; intros cd Hagg mc Hin.
  - injection Hagg as <-. destruct Hin.
  - destruct (String.eqb _ _).
    + destruct (calculate m) as [[c|]|e] eqn:Hc; simpl in Hagg; try discriminate.
      * destruct (aggregate markets) as [cd'|e]; simpl in Hagg; [|discriminate].
        injection Hagg as <-. destruct Hin as [<-|Hin].
        -- assert (Hpd : prediction_data c = m).
           { unfold calculate_crypto_consensus in Hc.
             destruct (_ <? _)%nat; [discriminate|].
             destruct (Qeq_bool _ _); [discriminate|].
             destruct (market_asset m); [|discriminate].
             injection Hc as <-. reflexivity. }
           now rewrite Hpd.
        -- now apply (IH cd').
      * destruct (aggregate markets) as [cd'|e]; simpl in Hagg; [|discriminate].
        injection Hagg as <-. now apply (IH cd').
    + now apply (IH cd).
Qed.

(** C4, as the code has it. A market with fewer than 2 participants, or
    whose contributing predictions weigh 0 in total (so also a market
    without any contributing prediction), yields no consensus; no consensus
    of the cycle stems from it, and the consensus list, hence the signals
    generated from it, is the one of the venue without that market. *)
Theorem no_consensus_no_signal (market : Market) :
  (length (default [] (participants market)) < 2)%nat \/
  (sum_weights (retrieved market) == 0)%Q ->
  calculate market = Ok None /\
  (forall markets consensus_data,
     aggregate markets = Ok consensus_data ->
     forall mc, In mc consensus_data -> prediction_data mc <> market) /\
  (forall config before mid after,
     (consensus_data ← aggregate (before ++ (mid, market) :: after);
      generate_signals now config consensus_data) =
     (consensus_data ← aggregate (before ++ after);
      generate_signals now config consensus_data)).
Proof.
  intros H.
  assert (Hnone : calculate market = Ok None).
  { destruct H; [now apply few_participants_no_consensus|now apply zero_weight_no_consensus]. }
  split; [exact Hnone|]. split.
  - intros markets cd Hagg mc Hin Heq.
    apply (aggregate_sources _ _ Hagg) in Hin. rewrite Heq, Hnone in Hin. discriminate.
  - intros config before mid after. now rewrite aggregate_skips.
Qed.

End Aggregation.

(** ** Signal generation of the venue *)

Section Signals.

Variable now : Z.

(** The configuration holds a numeric ["execution_threshold"] [thr] and a
    numeric ["max_position_size"] [max_size] under ["trading"]. *)
Definition trading_section (config : pyval) (thr max_size : Q) : Prop :=
  exists trading thr_v max_v,
    py_index config "trading" = Ok trading /\
    py_index trading "execution_threshold" = Ok thr_v /\ py_num thr_v = Ok thr /\
    py_index trading "max_position_size" = Ok max_v /\ py_num max_v = Ok max_size.

(** The signal that [generate_signals] builds from a consensus that passes. *)
Definition signal_of (max_size : Q) (consensus : MarketConsensus) : TradingSignal :=
  {| ts_asset := asset consensus;
     ts_direction := if Qlt_bool 0 (signal_strength consensus) then long else short;
     ts_size := py_min (max_size * confidence consensus * Qabs (signal_strength consensus)) max_size;
     ts_confidence := confidence consensus;
     ts_reasoning := PredictionConsensus (signal_strength consensus) (confidence consensus);
     ts_expiry := (now + 24 * 3600)%Z |}.

(** [confidence >= execution_threshold]. *)
Definition clears (thr : Q) (consensus : MarketConsensus) : bool :=
  Qle_bool thr (confidence consensus).

Lemma generate_signals_filter (config : pyval) (thr max_size : Q)
    (consensus_data : list MarketConsensus) :
  trading_section config thr max_size ->
  generate_signals now config consensus_data =
    Ok (map (signal_of max_size) (List.filter (clears thr) consensus_data)).
Proof.
  intros (trading & thr_v & max_v & Ht & Hthr & Hthrn & Hmax & Hmaxn).
  unfold generate_signals. rewrite Ht. simpl. rewrite Hthr. simpl.
  induction consensus_data as [|c cd IH]; [reflexivity|].
  simpl. unfold signal_for at 1. rewrite Hthrn. simpl.
  rewrite IH.
  destruct (Qle_bool thr (confidence c)) eqn:Hc; simpl; unfold clears; rewrite Hc; [|reflexivity].
  unfold calculate_position_size. rewrite Ht. simpl. rewrite Hmax. simpl.
  rewrite Hmaxn. reflexivity.
Qed.

End Signals.

(** The sizing of the venue at the default configuration, for a weak
    consensus that clears the threshold: the size is 0.002, below a quarter
    of the cap of 0.025. *)
Definition weak_consensus : MarketConsensus :=
  {| asset := "BTC";
     signal_strength := 0.1;
     confidence := 0.8;
     agent_count := 3;
     prediction_data :=
       {| market_id := "crypto_BTC_1"; market_type := "crypto_price";
          market_asset := Some "BTC"; participants := Some ["a1"; "a2"; "a3"];
          created := 0; market_expiry := 2592000 |};
     timestamp := 0 |}.

(** C1, on the venue's own [calculate_position_size]. The default
    configuration turns [weak_consensus] (signal strength 0.1, confidence
    0.8) into a signal of size 0.002, which is below
    0.25 × max_position_size = 0.00625. *)
Theorem venue_size_below_floor :
  exists sig,
    generate_signals 0 get_default_config [weak_consensus] = Ok [sig] /\
    (ts_size sig == 0.002)%Q /\
    (ts_size sig < 0.25 * 0.025)%Q.
Proof.
  eexists. split; [vm_compute; reflexivity|]. split; reflexivity.
Qed.

(** ** The cycle and its failures *)

Section Cycle.

Variable get_agent_prediction : string -> string -> option AgentPrediction.
Variable get_agent_reputation_weight : string -> Q.
Variable now : Z.
Variable manage_markets_body : M Venue unit.
Variable coordinate_agents_body : M Venue unit.
Variable update_metrics_body : M Venue unit.
Variable execute_signal : TradingSignal -> result bool.

Abbreviation cycle :=
  (run_venue_cycle get_agent_prediction get_agent_reputation_weight now
     manage_markets_body coordinate_agents_body update_metrics_body execute_signal).
Abbreviation iteration :=
  (main_iteration get_agent_prediction get_agent_reputation_weight now
     manage_markets_body coordinate_agents_body update_metrics_body execute_signal).

Definition all_phases : list Phase :=
  [MarketManagement; AgentCoordination; ConsensusGeneration; SignalGeneration;
   TradeExecution; PerformanceUpdate].

Definition started (phases : list Phase) : list Event :=
  map (fun ph => Log (PhaseStarted ph)) phases.

Lemma execute_trades_loop_ok (signals : list TradingSignal) (n : Z) (p : Process) :
  exists m, execute_trades_loop execute_signal signals n p = (Ok m, p).
Proof.
  revert n. induction signals as [|sig signals IH]; intros n; simpl.
  - now exists n.
  - unfold mbind, M_bind, try_except, liftR. 
    destruct (execute_signal sig) as [ok|e]; simpl; apply IH.
Qed.

(** The phases that a cycle has started when it is in phase [ph]. *)
Definition through (ph : Phase) : list Phase :=
  match ph with
  | MarketManagement => [MarketManagement]
  | AgentCoordination => [MarketManagement; AgentCoordination]
  | ConsensusGeneration => [MarketManagement; AgentCoordination; ConsensusGeneration]
  | SignalGeneration =>
      [MarketManagement; AgentCoordination; ConsensusGeneration; SignalGeneration]
  | TradeExecution =>
      [MarketManagement; AgentCoordination; ConsensusGeneration; SignalGeneration;
       TradeExecution]
  | PerformanceUpdate => all_phases
  end.

(** [self.trading_signals = signals]. *)
Definition with_signals (v : Venue) (signals : list TradingSignal) : Venue :=
  {| config := config v; active_markets := active_markets v;
     trading_signals := signals; venue_stats := venue_stats v |}.

(** In a cycle that starts on the venue [v], the phases before [ph] return
    and phase [ph] raises [e], leaving the venue [v']. There is no case for
    the trade execution: [execute_trades] handles the exception of each
    signal itself. *)
Inductive raises (v : Venue) : Phase -> exn -> Venue -> Prop :=
| raises_management e v1 :
    manage_markets_body v = (Raise e, v1) ->
    raises v MarketManagement e v1
| raises_coordination v1 e v2 :
    manage_markets_body v = (Ok tt, v1) ->
    coordinate_agents_body v1 = (Raise e, v2) ->
    raises v AgentCoordination e v2
| raises_consensus v1 v2 e :
    manage_markets_body v = (Ok tt, v1) ->
    coordinate_agents_body v1 = (Ok tt, v2) ->
    aggregate_consensus get_agent_prediction get_agent_reputation_weight now
      (active_markets v2) = Raise e ->
    raises v ConsensusGeneration e v2
| raises_signals v1 v2 consensus_data e :
    manage_markets_body v = (Ok tt, v1) ->
    coordinate_agents_body v1 = (Ok tt, v2) ->
    aggregate_consensus get_agent_prediction get_agent_reputation_weight now
      (active_markets v2) = Ok consensus_data ->
    generate_signals now (config v2) consensus_data = Raise e ->
    raises v SignalGeneration e v2
| raises_metrics v1 v2 consensus_data signals e v3 :
    manage_markets_body v = (Ok tt, v1) ->
    coordinate_agents_body v1 = (Ok tt, v2) ->
    aggregate_consensus get_agent_prediction get_agent_reputation_weight now
      (active_markets v2) = Ok consensus_data ->
    generate_signals now (config v2) consensus_data = Ok signals ->
    update_metrics_body (with_signals v2 signals) = (Raise e, v3) ->
    raises v PerformanceUpdate e v3.

(** Every phase of a cycle that starts on [v] returns; the venue is [v']
    afterwards. *)
Inductive completes (v : Venue) : Venue -> Prop :=
| completes_all v1 v2 consensus_data signals v3 :
    manage_markets_body v = (Ok tt, v1) ->
    coordinate_agents_body v1 = (Ok tt, v2) ->
    aggregate_consensus get_agent_prediction get_agent_reputation_weight now
      (active_markets v2) = Ok consensus_data ->
    generate_signals now (config v2) consensus_data = Ok signals ->
    update_metrics_body (with_signals v2 signals) = (Ok tt, v3) ->
    completes v v3.

Ltac run_cycle :=
  unfold main_iteration, run_venue_cycle, manage_markets, coordinate_agents,
    aggregate_consensus_phase, generate_signals_phase, execute_trades, update_metrics;
  unfold mbind, M_bind, try_except, emit, on_venue, liftR, modify_state, get_state,
    mret, M_ret;
  simpl.

Ltac same_events := simpl; repeat rewrite <- app_assoc; reflexivity.

Lemma turn_of_failed_cycle (v v' : Venue) (evs : list Event) (ph : Phase) (e : exn) :
  raises v ph e v' ->
  iteration false {| self := v; events := evs |} =
    (Running,
     {| self := v';
        events := evs ++ [Log StartingVenueCycle] ++ started (through ph)
                    ++ [Log (VenueCycleFailed e); Log (VenueError e); Sleep 60] |}).
Proof.
  intros H. destruct H as [e v1 H1|v1 e v2 H1 H2|v1 v2 e H1 H2 H3|v1 v2 cd e H1 H2 H3 H4
                          |v1 v2 cd sigs e v3 H1 H2 H3 H4 H6]; run_cycle.
  - rewrite H1. same_events.
  - rewrite H1. simpl. rewrite H2. same_events.
  - rewrite H1. simpl. rewrite H2. simpl. rewrite H3. same_events.
  - rewrite H1. simpl. rewrite H2. simpl. rewrite H3. simpl. rewrite H4. same_events.
  - rewrite H1. simpl. rewrite H2. simpl. rewrite H3. simpl. rewrite H4. simpl.
    match goal with |- context [execute_trades_loop _ ?s ?n ?q] =>
      destruct (execute_trades_loop_ok s n q) as [m ->] end.
    simpl. unfold with_signals in H6. rewrite H6. same_events.
Qed.

Lemma turn_of_completed_cycle (v v' : Venue) (evs : list Event) :
  completes v v' ->
  iteration false {| self := v; events := evs |} =
    (Running,
     {| self := v';
        events := evs ++ [Log StartingVenueCycle] ++ started all_phases
                    ++ [Log VenueCycleCompleted; Sleep 1800] |}).
Proof.
  intros [v1 v2 cd sigs v3 H1 H2 H3 H4 H6]. run_cycle.
  rewrite H1. simpl. rewrite H2. simpl. rewrite H3. simpl. rewrite H4. simpl.
  match goal with |- context [execute_trades_loop _ ?s ?n ?q] =>
    destruct (execute_trades_loop_ok s n q) as [m ->] end.
  simpl. unfold with_signals in H6. rewrite H6. same_events.
Qed.

Lemma raises_or_completes (v : Venue) :
  (exists ph e v', raises v ph e v') \/ (exists v', completes v v').
Proof.
  destruct (manage_markets_body v) as [[[]|e1] v1] eqn:H1.
  2:{ left. exists MarketManagement, e1, v1. now constructor. }
  destruct (coordinate_agents_body v1) as [[[]|e2] v2] eqn:H2.
  2:{ left. exists AgentCoordination, e2, v2. now apply (raises_coordination v v1). }
  destruct (aggregate_consensus get_agent_prediction get_agent_reputation_weight now
              (active_markets v2)) as [cd|e3] eqn:H3.
  2:{ left. exists ConsensusGeneration, e3, v2. now apply (raises_consensus v v1). }
  destruct (generate_signals now (config v2) cd) as [sigs|e4] eqn:H4.
  2:{ left. exists SignalGeneration, e4, v2. now apply (raises_signals v v1 v2 cd). }
  destruct (update_metrics_body (with_signals v2 sigs)) as [[[]|e6] v3] eqn:H6.
  - right. exists v3. now apply (completes_all v v1 v2 cd sigs).
  - left. exists PerformanceUpdate, e6, v3. now apply (raises_metrics v v1 v2 cd sigs).
Qed.

Lemma main_keeps_running (n : nat) (p : Process) :
  fst (main_loop get_agent_prediction get_agent_reputation_weight now
         manage_markets_body coordinate_agents_body update_metrics_body execute_signal
         (repeat false n) p) = Running.
Proof.
  revert p. induction n as [|n IH]; intros p; simpl; [reflexivity|].
  unfold main_iteration. destruct (cycle p) as [[u|e] p']; apply IH.
Qed.

(** C8. A turn of the main loop on any venue, whatever its configuration.
    When a phase of the cycle raises, the cycle raises too: the phases
    started are the ones up to the raising phase and no later one, the
    venue is as the raising phase left it, the loop sleeps 60 seconds and
    stays running. When every phase returns, all six phases were started
    and the loop sleeps 1800 seconds. A turn is of one of the two kinds,
    and without a [KeyboardInterrupt] the loop is still running after any
    number of turns. Both durations are literals of [main]. *)
Theorem failed_cycle_backs_off (v : Venue) (evs : list Event) :
  (forall ph e v',
     raises v ph e v' ->
     iteration false {| self := v; events := evs |} =
       (Running,
        {| self := v';
           events := evs ++ [Log StartingVenueCycle] ++ started (through ph)
                       ++ [Log (VenueCycleFailed e); Log (VenueError e); Sleep 60] |})) /\
  (forall v',
     completes v v' ->
     iteration false {| self := v; events := evs |} =
       (Running,
        {| self := v';
           events := evs ++ [Log StartingVenueCycle] ++ started all_phases
                       ++ [Log VenueCycleCompleted; Sleep 1800] |})) /\
  ((exists ph e v', raises v ph e v') \/ (exists v', completes v v')) /\
  forall n,
    fst (main_loop get_agent_prediction get_agent_reputation_weight now
           manage_markets_body coordinate_agents_body update_metrics_body execute_signal
           (repeat false n) {| self := v; events := evs |}) = Running.
Proof.
  split; [|split; [|split]].
  - intros ph e v' H. now apply turn_of_failed_cycle.
  - intros v' H. now apply turn_of_completed_cycle.
  - apply raises_or_completes.
  - intros n. apply main_keeps_running.
Qed.

End Cycle.

(** The scenario of the specification: the agents cannot be reached, on a
    venue whose configuration sets the two durations that the
    specification names. *)
Definition with_option (k : string) (value : pyval) (config : pyval) : pyval :=
  match config with
  | PDict d => PDict (<[k := value]> d)
  | _ => config
  end.

Definition configured_venue : Venue :=
  {| config := with_option "error_backoff_seconds" (PInt 5)
                 (with_option "cycle_interval_seconds" (PInt 600) get_default_config);
     active_markets := [];
     trading_signals := [];
     venue_stats := PDict ∅ |}.

Definition agents_unreachable : M Venue unit :=
  liftR (Raise (BackendError "agents unreachable")).

Definition nothing_to_do : M Venue unit := mret tt.

Lemma failed_cycle_backs_off_witness :
  main_iteration get_agent_prediction_stub get_agent_reputation_weight_stub 0
    nothing_to_do agents_unreachable nothing_to_do (fun _ => Ok true) false
    {| self := configured_venue; events := [] |} =
  (Running,
   {| self := configured_venue;
      events := [Log StartingVenueCycle;
                 Log (PhaseStarted MarketManagement);
                 Log (PhaseStarted AgentCoordination);
                 Log (VenueCycleFailed (BackendError "agents unreachable"));
                 Log (VenueError (BackendError "agents unreachable"));
                 Sleep 60] |}).
Proof.
  apply (proj1 (failed_cycle_backs_off get_agent_prediction_stub
                  get_agent_reputation_weight_stub 0 nothing_to_do agents_unreachable
                  nothing_to_do (fun _ => Ok true) configured_venue [])
           AgentCoordination (BackendError "agents unreachable") configured_venue).
  apply (raises_coordination _ _ _ _ _ _ configured_venue configured_venue); reflexivity.
Defined.

(** The durations are not read from the configuration: with
    [error_backoff_seconds] 5 and [cycle_interval_seconds] 600 the loop
    still sleeps 60 seconds after the failed cycle and 1800 after a
    completed one. *)
Lemma configured_backoff_is_ignored :
  py_index (config configured_venue) "error_backoff_seconds" = Ok (PInt 5) /\
  py_index (config configured_venue) "cycle_interval_seconds" = Ok (PInt 600) /\
  events (snd (main_iteration get_agent_prediction_stub get_agent_reputation_weight_stub 0
                 nothing_to_do agents_unreachable nothing_to_do (fun _ => Ok true) false
                 {| self := configured_venue; events := [] |})) =
    [Log StartingVenueCycle;
     Log (PhaseStarted MarketManagement);
     Log (PhaseStarted AgentCoordination);
     Log (VenueCycleFailed (BackendError "agents unreachable"));
     Log (VenueError (BackendError "agents unreachable"));
     Sleep 60] /\
  last (events (snd (main_iteration get_agent_prediction_stub get_agent_reputation_weight_stub 0
                       nothing_to_do nothing_to_do nothing_to_do (fun _ => Ok true) false
                       {| self := configured_venue; events := [] |}))) = Some (Sleep 1800).
Proof.
  split; [reflexivity|]. split; [reflexivity|]. split; vm_compute; reflexivity.
Qed.


(** *** Concrete markets *)

(** The example of the specification: three predictions for BTC. *)
Definition btc_market : Market :=
  {| market_id := "crypto_BTC_1";
     market_type := "crypto_price";
     market_asset := Some "BTC";
     participants := Some ["a1"; "a2"; "a3"];
     created := 0;
     market_expiry := 2592000 |}.

Definition btc_predictions (agent_id market_id : string) : option AgentPrediction :=
  if String.eqb agent_id "a1" then Some {| pred_signal := 0.73; pred_confidence := 0.85 |}
  else if String.eqb agent_id "a2" then Some {| pred_signal := 0.68; pred_confidence := 0.78 |}
  else if String.eqb agent_id "a3" then Some {| pred_signal := 0.82; pred_confidence := 0.71 |}
  else None.

Definition btc_weights (agent_id : string) : Q :=
  if String.eqb agent_id "a1" then 0.85
  else if String.eqb agent_id "a2" then 0.72
  else 0.68.

Lemma consensus_is_weighted_mean_witness :
  (2 <= length (default [] (participants btc_market)))%nat /\
  (0 < sum_weights (retrieved btc_predictions btc_weights btc_market))%Q /\
  exists mc,
    calculate_crypto_consensus btc_predictions btc_weights 0 btc_market = Ok (Some mc) /\
    (signal_strength mc ==
       sum_weighted pred_signal (retrieved btc_predictions btc_weights btc_market) /
       sum_weights (retrieved btc_predictions btc_weights btc_market))%Q /\
    (confidence mc ==
       sum_weighted pred_confidence (retrieved btc_predictions btc_weights btc_market) /
       sum_weights (retrieved btc_predictions btc_weights btc_market))%Q /\
    (nonneg_weights (retrieved btc_predictions btc_weights btc_market) ->
     in_range (retrieved btc_predictions btc_weights btc_market) ->
     (-1 <= signal_strength mc <= 1)%Q /\ (0 <= confidence mc <= 1)%Q).
Proof.
  split; [simpl; lia|]. split; [reflexivity|].
  apply (proj2 (consensus_is_weighted_mean btc_predictions btc_weights 0 btc_market))
    with (a := "BTC"%string).
  - simpl; lia.
  - reflexivity.
  - reflexivity.
Defined.

(** A market with two participants of which one has a prediction. *)
Definition thin_market : Market :=
  {| market_id := "crypto_ETH_1";
     market_type := "crypto_price";
     market_asset := Some "ETH";
     participants := Some ["a1"; "a2"];
     created := 0;
     market_expiry := 2592000 |}.

Definition one_prediction (agent_id market_id : string) : option AgentPrediction :=
  if String.eqb agent_id "a1" then Some {| pred_signal := 0.9; pred_confidence := 0.99 |}
  else None.

(** One contributing prediction, and yet a consensus and a signal. *)
Lemma one_prediction_gives_signal :
  length (retrieved one_prediction get_agent_reputation_weight_stub thin_market) = 1%nat /\
  exists mc sig,
    calculate_crypto_consensus one_prediction get_agent_reputation_weight_stub 0 thin_market
      = Ok (Some mc) /\
    generate_signals 0 get_default_config [mc] = Ok [sig].
Proof.
  split; [reflexivity|].
  eexists. eexists. split; [reflexivity|]. vm_compute. reflexivity.
Qed.

(** A market with a single participant. *)
Definition single_agent_market : Market :=
  {| market_id := "crypto_SOL_1";
     market_type := "crypto_price";
     market_asset := Some "SOL";
     participants := Some ["a1"];
     created := 0;
     market_expiry := 2592000 |}.

Lemma no_consensus_no_signal_witness :
  ((length (default [] (participants single_agent_market)) < 2)%nat \/
   (sum_weights (retrieved one_prediction get_agent_reputation_weight_stub single_agent_market) == 0)%Q) /\
  calculate_crypto_consensus one_prediction get_agent_reputation_weight_stub 0 single_agent_market
    = Ok None.
Proof.
  assert (H : (length (default [] (participants single_agent_market)) < 2)%nat \/
              (sum_weights (retrieved one_prediction get_agent_reputation_weight_stub single_agent_market) == 0)%Q)
    by (left; simpl; lia).
  split; [exact H|].
  exact (proj1 (no_consensus_no_signal one_prediction get_agent_reputation_weight_stub 0
                  single_agent_market H)).
Defined.

End VenueProps.

(** * Properties of the trading bridge *)

Module BridgeProps.
Import TradingIntegration.

Ltac run_monad :=
  unfold mbind, M_bind, try_except, liftR, modify_state, get_state, mret, M_ret in *.

(** ** Position sizing of the bridge *)

Section Sizing.

(** clamp(x, lo, hi) as the specification uses it. *)
Definition clamp (x lo hi : Q) : Q :=
  if Qlt_bool x lo then lo else if Qlt_bool hi x then hi else x.

Lemma Qlt_bool_iff (x y : Q) : Qlt_bool x y = true <-> (x < y)%Q.
Proof.
  unfold Qlt_bool. rewrite negb_true_iff. split.
  - intros H. apply Qnot_le_lt. intros Hle. apply Qle_bool_iff in Hle. congruence.
  - intros H. destruct (Qle_bool y x) eqn:E; [|reflexivity].
    apply Qle_bool_iff in E. exfalso. exact (Qlt_not_le _ _ H E).
Qed.

Lemma Qlt_bool_false (x y : Q) : Qlt_bool x y = false <-> (y <= x)%Q.
Proof.
  unfold Qlt_bool. rewrite negb_false_iff. apply Qle_bool_iff.
Qed.

Lemma py_max_min_clamp (x lo hi : Q) :
  (lo <= hi)%Q -> (py_max lo (py_min x hi) == clamp x lo hi)%Q.
Proof.
  intros Hle. unfold py_max, py_min, clamp.
  destruct (Qlt_bool hi x) eqn:Hhi.
  - apply Qlt_bool_iff in Hhi.
    destruct (Qlt_bool lo hi) eqn:H1.
    + destruct (Qlt_bool x lo) eqn:H2; [|reflexivity].
      apply Qlt_bool_iff in H2. exfalso.
      apply (Qlt_irrefl x). eapply Qlt_le_trans; [exact H2|].
      eapply Qle_trans; [exact Hle|]. now apply Qlt_le_weak.
    + apply Qlt_bool_false in H1.
      destruct (Qlt_bool x lo) eqn:H2; [reflexivity|].
      now apply Qle_antisym.
  - destruct (Qlt_bool lo x) eqn:H1.
    + apply Qlt_bool_iff in H1.
      destruct (Qlt_bool x lo) eqn:H2; [|reflexivity].
      apply Qlt_bool_iff in H2. exfalso.
      apply (Qlt_irrefl x). now apply Qlt_trans with lo.
    + apply Qlt_bool_false in H1.
      destruct (Qlt_bool x lo) eqn:H2; [reflexivity|].
      apply Qlt_bool_false in H2. now apply Qle_antisym.
Qed.

Lemma clamp_bounds (x lo hi : Q) :
  (lo <= hi)%Q -> (lo <= clamp x lo hi <= hi)%Q.
Proof.
  intros Hle. unfold clamp.
  destruct (Qlt_bool x lo) eqn:H1.
  - split; [apply Qle_refl|exact Hle].
  - apply Qlt_bool_false in H1.
    destruct (Qlt_bool hi x) eqn:H2.
    + split; [exact Hle|apply Qle_refl].
    + apply Qlt_bool_false in H2. now split.
Qed.

(** [self.venue_config] holds the numeric per-trade cap [max_size] (or no
    cap, and [max_size] is the default 0.025). *)
Definition max_position_size (self : Bridge) (max_size : Q) : Prop :=
  exists v,
    config_get (venue_config self) "trading" "max_position_size" (PFloat 0.025) = Ok v /\
    py_num v = Ok max_size.

(** The size that the bridge computes is
    clamp(max_size × |signal_strength| × confidence, 0.25 × max_size, max_size)
    and lies between a quarter of the cap and the cap. *)
Lemma bridge_size_is_clamped (self : Bridge) (max_size signal_strength confidence : Q) :
  max_position_size self max_size ->
  (0 <= max_size)%Q ->
  exists size,
    calculate_position_size signal_strength confidence self = (Ok size, self) /\
    (size == clamp (max_size * Qabs signal_strength * confidence) (0.25 * max_size) max_size)%Q /\
    (0.25 * max_size <= size <= max_size)%Q.
Proof.
  intros (v & Hv & Hn) Hpos.
  unfold calculate_position_size. run_monad. rewrite Hv, Hn.
  eexists. split; [reflexivity|].
  assert (Hle : (0.25 * max_size <= max_size)%Q).
  { rewrite <- (Qmult_1_l max_size) at 2. apply Qmult_le_compat_r; [discriminate|exact Hpos]. }
  assert (Heq : (py_max (max_size * 0.25)
                   (py_min (max_size * Qabs signal_strength * confidence) (max_size * 1.0))
                 == clamp (max_size * Qabs signal_strength * confidence) (0.25 * max_size) max_size)%Q).
  { rewrite py_max_min_clamp.
    - unfold clamp.
      assert (E1 : Qlt_bool (max_size * Qabs signal_strength * confidence) (max_size * 0.25)
                   = Qlt_bool (max_size * Qabs signal_strength * confidence) (0.25 * max_size)).
      { unfold Qlt_bool. f_equal. apply Qleb_comp; [ring|reflexivity]. }
      assert (E2 : Qlt_bool (max_size * 1.0) (max_size * Qabs signal_strength * confidence)
                   = Qlt_bool max_size (max_size * Qabs signal_strength * confidence)).
      { unfold Qlt_bool. f_equal. apply Qleb_comp; [reflexivity|ring]. }
      rewrite E1, E2.
      destruct (Qlt_bool _ (0.25 * max_size)); [ring|].
      destruct (Qlt_bool max_size _); [ring|reflexivity].
    - assert (R1 : (max_size * 0.25 == 0.25 * max_size)%Q) by ring.
      assert (R2 : (max_size * 1.0 == max_size)%Q) by ring.
      rewrite R1, R2. exact Hle. }
  split; [exact Heq|]. rewrite Heq. now apply clamp_bounds.
Qed.

End Sizing.

(** ** Risk assessment *)

Section Risk.

Variable get_current_exposure : string -> result Z.

Abbreviation assess := (assess_trade_risk get_current_exposure).
Abbreviation assess_body := (assess_trade_risk_body get_current_exposure).


Lemma assess_body_frame (trading_pair : string) (dir : direction) (size : Q) (self : Bridge) :
  snd (assess_body trading_pair dir size self) = self.
Proof.
  unfold assess_trade_risk_body. run_monad.
  destruct (get_current_exposure trading_pair) as [cur|e]; [|reflexivity].
  destruct (config_get (trading_config self) "portfolio" "max_positions" (PInt 5)) as [mev|e];
    [|reflexivity].
  destruct (py_num mev) as [me|e]; [|reflexivity].
  destruct (Qle_bool me (inject_Z cur)); [reflexivity|].
  destruct (config_get (trading_config self) "risk_management" "max_position_size" (PFloat 0.02))
    as [mpv|e]; [|reflexivity].
  destruct (py_num mpv) as [mp|e]; [|reflexivity].
  destruct (Qlt_bool mp size); [reflexivity|].
  destruct (config_get (trading_config self) "risk_management" "stop_loss" (PFloat 0.015))
    as [sl|e]; [|reflexivity].
  destruct (config_get (trading_config self) "risk_management" "take_profit" (PFloat 0.03))
    as [tp|e]; reflexivity.
Qed.

Lemma assess_total (trading_pair : string) (dir : direction) (size : Q) (self : Bridge) :
  exists decision, assess trading_pair dir size self = (Ok decision, self).
Proof.
  unfold assess_trade_risk, try_except.
  pose proof (assess_body_frame trading_pair dir size self) as Hframe.
  destruct (assess_body trading_pair dir size self) as [[d|e] self'];
    simpl in Hframe; subst self'; eexists; reflexivity.
Qed.


(** C9. A call of [assess_trade_risk] returns a decision, never an
    exception, and returns the bridge as it was: configurations, trade
    list, performance metrics and engine untouched. The decision is the one
    of the statements under [try] when they finish; when they raise [e], it
    is the rejection whose reason reports [e]. A decision is a record with
    an [approved] flag and a [reason]. *)
Theorem risk_assessment_never_raises (trading_pair : string) (dir : direction) (size : Q)
    (self : Bridge) :
  exists decision,
    assess trading_pair dir size self = (Ok decision, self) /\
    match fst (assess_body trading_pair dir size self) with
    | Ok d => decision = d
    | Raise e => decision = risk_error e /\ approved decision = false /\
                 reason decision = RiskAssessmentError e
    end.
Proof.
  unfold assess_trade_risk, try_except.
  pose proof (assess_body_frame trading_pair dir size self) as Hframe.
  destruct (assess_body trading_pair dir size self) as [[d|e] self'] eqn:Hb;
    simpl in Hframe; subst self'.
  - exists d. split; reflexivity.
  - exists (risk_error e). split; [reflexivity|]. simpl. repeat split.
Qed.


End Risk.

(** ** From a consensus to a signal *)

Section SignalCreation.

Variable get_current_exposure : string -> result Z.
Variable now : Z.

Abbreviation create := (create_trading_signal get_current_exposure now).
Abbreviation process_one' := (process_one get_current_exposure now).
Abbreviation process := (process_prediction_signals get_current_exposure now).

Lemma calculate_position_size_frame (s c : Q) (self : Bridge) :
  snd (calculate_position_size s c self) = self.
Proof.
  unfold calculate_position_size. run_monad.
  destruct (config_get _ _ _ _) as [v|e]; [|reflexivity].
  destruct (py_num v); reflexivity.
Qed.

Lemma validate_consensus_frame (c : Consensus.t) (self : Bridge) :
  snd (validate_consensus c self) = self.
Proof.
  unfold validate_consensus. run_monad.
  destruct (Consensus.asset c), (Consensus.signal_strength c),
    (Consensus.confidence c), (Consensus.agent_count c); try reflexivity.
  destruct (config_get _ _ "execution_threshold" _) as [v|e]; [|reflexivity].
  destruct (py_num v); [|reflexivity].
  destruct (Qlt_bool _ _); [reflexivity|].
  destruct (config_get _ _ _ _) as [v'|e]; [|reflexivity].
  destruct (py_num v'); [|reflexivity].
  destruct (Qlt_bool _ _); reflexivity.
Qed.


Lemma validate_consensus_true (c : Consensus.t) (self self' : Bridge) :
  validate_consensus c self = (Ok true, self') ->
  exists thr_v thr conf,
    config_get (venue_config self) "trading" "execution_threshold" (PFloat 0.7) = Ok thr_v /\
    py_num thr_v = Ok thr /\
    Consensus.confidence c = Some conf /\
    (thr <= conf)%Q.
Proof.
  unfold validate_consensus. run_monad.
  destruct (Consensus.asset c), (Consensus.signal_strength c),
    (Consensus.confidence c) as [conf|], (Consensus.agent_count c); try discriminate.
  destruct (config_get _ _ "execution_threshold" _) as [v|e]; [|discriminate].
  destruct (py_num v) as [thr|e] eqn:Hn; [|discriminate].
  destruct (Qlt_bool conf thr) eqn:Hlt; [discriminate|].
  intros _. exists v, thr, conf. repeat split; try assumption.
  now apply Qlt_bool_false.
Qed.

Lemma create_trading_signal_frame (c : Consensus.t) (self : Bridge) :
  snd (create c self) = self.
Proof.
  unfold create_trading_signal, item. run_monad.
  destruct (Consensus.asset c) as [a|]; [|reflexivity].
  destruct (Consensus.signal_strength c) as [s|]; [|reflexivity].
  destruct (Consensus.confidence c) as [conf|]; [|reflexivity].
  destruct (map_asset_to_pair a) as [pair|]; [|reflexivity].
  pose proof (calculate_position_size_frame s conf self) as Hsz. run_monad.
  destruct (calculate_position_size s conf self) as [[sz|e] b1]; simpl in Hsz; subst b1;
    [|reflexivity].
  destruct (assess_total get_current_exposure pair
              (if Qlt_bool 0 s then long else short) sz self) as (d & Hd).
  rewrite Hd.
  destruct (approved d); simpl; [|reflexivity].
  destruct (stop_loss d); [|reflexivity].
  destruct (take_profit d); [|reflexivity].
  destruct (Consensus.agent_count c); reflexivity.
Qed.

Lemma create_trading_signal_fields (c : Consensus.t) (self self' : Bridge) (sig : Signal.t) :
  create c self = (Ok (Some sig), self') ->
  exists s,
    Consensus.signal_strength c = Some s /\
    Signal.signal_strength sig = Qabs s /\
    Signal.direction sig = (if Qlt_bool 0 s then long else short) /\
    Signal.prediction_data sig = c.
Proof.
  unfold create_trading_signal, item. run_monad.
  destruct (Consensus.asset c) as [a|]; [|discriminate].
  destruct (Consensus.signal_strength c) as [s|]; [|discriminate].
  destruct (Consensus.confidence c) as [conf|]; [|discriminate].
  destruct (map_asset_to_pair a) as [pair|]; [|discriminate].
  destruct (calculate_position_size s conf self) as [[sz|e] b1]; [|discriminate].
  destruct (assess_trade_risk _ _ _ _ _) as [[d|e] b2]; [|discriminate].
  destruct (approved d); simpl; [|discriminate].
  destruct (stop_loss d); [|discriminate].
  destruct (take_profit d); [|discriminate].
  destruct (Consensus.agent_count c); [|discriminate].
  intros [= <- _]. exists s. simpl. repeat split.
Qed.

(** C10. A signal that [create_trading_signal] builds from a consensus
    carries, under ['signal_strength'], the absolute value of the signal
    strength of the consensus, which is not negative; the sign is in
    ['direction'] ([long] for a positive strength, [short] otherwise); and
    ['prediction_data'] is the consensus itself, signed strength included. *)
Theorem signal_keeps_magnitude_and_record (c : Consensus.t) (self self' : Bridge) (sig : Signal.t) :
  create c self = (Ok (Some sig), self') ->
  exists s,
    Consensus.signal_strength c = Some s /\
    Signal.signal_strength sig = Qabs s /\
    (0 <= Signal.signal_strength sig)%Q /\
    Signal.direction sig = (if Qlt_bool 0 s then long else short) /\
    Signal.prediction_data sig = c /\
    Consensus.signal_strength (Signal.prediction_data sig) = Some s.
Proof.
  intros H. destruct (create_trading_signal_fields c self self' sig H) as (s & Hs & Habs & Hdir & Hpd).
  exists s. rewrite Habs, Hpd. repeat split; try assumption. apply Qabs_nonneg.
Qed.

Lemma create_trading_signal_source (c : Consensus.t) (self self' : Bridge) (sig : Signal.t) :
  create c self = (Ok (Some sig), self') -> Signal.prediction_data sig = c.
Proof.
  intros H. now destruct (create_trading_signal_fields c self self' sig H) as (s & _ & _ & _ & ?).
Qed.


Lemma process_one_spec (c : Consensus.t) (self : Bridge) :
  exists o,
    process_one' c self = (Ok o, self) /\
    forall sig, o = Some sig ->
      Signal.prediction_data sig = c /\
      exists self1, validate_consensus c self = (Ok true, self1).
Proof.
  unfold process_one, try_except. run_monad.
  pose proof (validate_consensus_frame c self) as Hv.
  destruct (validate_consensus c self) as [[[|]|e] b1] eqn:Hval; simpl in Hv; subst b1; simpl.
  - pose proof (create_trading_signal_frame c self) as Hc.
    destruct (create c self) as [[o|e] b2] eqn:Hcr; simpl in Hc; subst b2.
    + exists o. split; [reflexivity|]. intros sig ->. split.
      * now apply (create_trading_signal_source c self self).
      * now exists self.
    + exists None. split; [reflexivity|]. discriminate.
  - exists None. split; [reflexivity|]. discriminate.
  - exists None. split; [reflexivity|]. discriminate.
Qed.

Lemma process_signals_spec (cs : list Consensus.t) (self : Bridge) :
  exists sigs,
    process cs self = (Ok sigs, self) /\
    forall sig, In sig sigs ->
      In (Signal.prediction_data sig) cs /\
      exists self1, validate_consensus (Signal.prediction_data sig) self = (Ok true, self1).
Proof.
  induction cs as [|c cs IH]; simpl.
  - exists []. split; [reflexivity|]. intros sig [].
  - destruct (process_one_spec c self) as (o & Ho & Hsig).
    destruct IH as (sigs & Hp & Hall).
    run_monad. rewrite Ho, Hp.
    destruct o as [sig0|].
    + exists (sig0 :: sigs). split; [reflexivity|].
      intros sig [<-|Hin].
      * destruct (Hsig sig0 eq_refl) as [Hpd Hv]. rewrite Hpd. split; [now left|exact Hv].
      * destruct (Hall sig Hin) as [? ?]. split; [now right|assumption].
    + exists sigs. split; [reflexivity|].
      intros sig Hin. destruct (Hall sig Hin) as [? ?]. split; [now right|assumption].
Qed.

End SignalCreation.

(** ** Execution of a batch *)

Section Execution.

Variable get_current_exposure : string -> result Z.
Variable execute_trade : TradeParams -> result pyval.
Variable now : Z.

(** [trade_params] of a signal. *)
Definition params_of (signal : Signal.t) : TradeParams :=
  {| symbol := Signal.trading_pair signal;
     side := Signal.direction signal;
     tp_size := Signal.size signal;
     order_type := Signal.entry_type signal;
     tp_stop_loss := Signal.stop_loss signal;
     tp_take_profit := Signal.take_profit signal;
     tp_source := "prediction_venue" |}.

(** How the loop of [execute_prediction_trades] counts a signal, by the
    answer of the engine: [Filled] when the engine answers with a dictionary
    whose volume is a number (or absent), [Rejected] when the engine raises
    or answers with something that has no [get], [CountedTwice] when the
    answer is a dictionary whose volume is not a number. *)
Inductive Outcome := Filled | Rejected | CountedTwice.

Definition outcome (signal : Signal.t) : Outcome :=
  match execute_trade (params_of signal) with
  | Ok (PDict d) =>
      match as_num (default (PInt 0) (d !! "volume")) with
      | Some _ => Filled
      | None => CountedTwice
      end
  | _ => Rejected
  end.

Definition count (o : Outcome) (signals : list Signal.t) : Z :=
  Z.of_nat (length (List.filter (fun s => match outcome s, o with
                                          | Filled, Filled | Rejected, Rejected
                                          | CountedTwice, CountedTwice => true
                                          | _, _ => false
                                          end) signals)).

Lemma count_cons (o : Outcome) (s : Signal.t) (signals : list Signal.t) :
  count o (s :: signals) =
    ((match outcome s, o with
      | Filled, Filled | Rejected, Rejected | CountedTwice, CountedTwice => 1
      | _, _ => 0
      end) + count o signals)%Z.
Proof.
  unfold count. simpl. destruct (outcome s), o; simpl length; lia.
Qed.

Lemma count_total (signals : list Signal.t) :
  (count Filled signals + count Rejected signals + count CountedTwice signals
   = Z.of_nat (length signals))%Z.
Proof.
  induction signals as [|s signals IH]; [reflexivity|].
  rewrite !count_cons. simpl length. destruct (outcome s); lia.
Qed.

Abbreviation exec_one := (execute_one execute_trade now).
Abbreviation exec_loop := (execute_loop execute_trade now).
Abbreviation exec_all := (execute_prediction_trades execute_trade now).

Lemma execute_one_counts (signal : Signal.t) (fr : Frame) :
  exists fr',
    exec_one signal fr = (Ok tt, fr') /\
    submitted (self_ fr') = submitted (self_ fr) ++ [params_of signal] /\
    performance_metrics (self_ fr') = performance_metrics (self_ fr) /\
    venue_config (self_ fr') = venue_config (self_ fr) /\
    trading_config (self_ fr') = trading_config (self_ fr) /\
    successful (execution_results fr') =
      (successful (execution_results fr) +
       match outcome signal with Rejected => 0 | _ => 1 end)%Z /\
    failed (execution_results fr') =
      (failed (execution_results fr) +
       match outcome signal with Filled => 0 | _ => 1 end)%Z /\
    length (trades (execution_results fr')) =
      (length (trades (execution_results fr)) +
       match outcome signal with Filled => 1 | _ => 0 end)%nat /\
    length (prediction_trades (self_ fr')) =
      (length (prediction_trades (self_ fr)) +
       match outcome signal with Filled => 1 | _ => 0 end)%nat.
Proof.
  unfold execute_one, execute_single_trade, call_engine, track_prediction_trade,
    on_self, update_results, outcome.
  run_monad. fold (params_of signal). simpl.
  destruct (execute_trade (params_of signal)) as [v|e]; simpl.
  2:{ eexists. split; [reflexivity|]. simpl. repeat split; lia. }
  destruct v; simpl;
    try (eexists; split; [reflexivity|]; simpl; repeat split; lia).
  unfold py_num.
  destruct (as_num (default (PInt 0) (d !! "volume"))) as [q|]; simpl.
  - eexists. split; [reflexivity|]. simpl. rewrite !length_app. simpl. repeat split; lia.
  - eexists. split; [reflexivity|]. simpl. repeat split; lia.
Qed.

Lemma execute_loop_counts (signals : list Signal.t) (fr : Frame) :
  exists fr',
    exec_loop signals fr = (Ok tt, fr') /\
    submitted (self_ fr') = submitted (self_ fr) ++ map params_of signals /\
    performance_metrics (self_ fr') = performance_metrics (self_ fr) /\
    venue_config (self_ fr') = venue_config (self_ fr) /\
    trading_config (self_ fr') = trading_config (self_ fr) /\
    successful (execution_results fr') =
      (successful (execution_results fr) + count Filled signals + count CountedTwice signals)%Z /\
    failed (execution_results fr') =
      (failed (execution_results fr) + count Rejected signals + count CountedTwice signals)%Z /\
    Z.of_nat (length (trades (execution_results fr'))) =
      (Z.of_nat (length (trades (execution_results fr))) + count Filled signals)%Z /\
    Z.of_nat (length (prediction_trades (self_ fr'))) =
      (Z.of_nat (length (prediction_trades (self_ fr))) + count Filled signals)%Z.
Proof.
  revert fr. induction signals as [|s signals IH]; intros fr.
  - exists fr. simpl. rewrite app_nil_r. unfold count. simpl. repeat split; lia.
  - destruct (execute_one_counts s fr) as (fr1 & H1 & Hs1 & Hm1 & Hv1 & Ht1 & Hok1 & Hf1 & Htr1 & Hp1).
    destruct (IH fr1) as (fr2 & H2 & Hs2 & Hm2 & Hv2 & Ht2 & Hok2 & Hf2 & Htr2 & Hp2).
    exists fr2. simpl. run_monad. rewrite H1, H2. split; [reflexivity|].
    rewrite !count_cons.
    rewrite Hs2, Hs1, Hm2, Hm1, Hv2, Hv1, Ht2, Ht1, Hok2, Hok1, Hf2, Hf1, Htr2, Htr1, Hp2, Hp1.
    rewrite <- app_assoc. simpl.
    repeat split; destruct (outcome s); lia.
Qed.

End Execution.

Section Reports.

Variable get_current_exposure : string -> result Z.
Variable execute_trade : TradeParams -> result pyval.
Variable now : Z.

Abbreviation exec_all' := (execute_prediction_trades execute_trade now).

(** What [execute_prediction_trades] returns and leaves behind. *)
Lemma execution_report (signals : list Signal.t) (self : Bridge) :
  exists report self',
    exec_all' signals self = (Ok report, self') /\
    submitted self' = submitted self ++ map params_of signals /\
    (successful report + failed report =
       Z.of_nat (length signals) + count execute_trade CountedTwice signals)%Z /\
    successful report =
      (count execute_trade Filled signals + count execute_trade CountedTwice signals)%Z /\
    Z.of_nat (length (trades report)) = count execute_trade Filled signals /\
    total_signals (performance_metrics self') =
      (total_signals (performance_metrics self) + Z.of_nat (length (trades report)))%Z /\
    executed_trades (performance_metrics self') =
      (executed_trades (performance_metrics self) + successful report)%Z /\
    ((0 < total_signals (performance_metrics self'))%Z ->
     accuracy_rate (performance_metrics self') =
       (inject_Z (executed_trades (performance_metrics self')) /
        inject_Z (total_signals (performance_metrics self')))%Q) /\
    ((total_signals (performance_metrics self') <= 0)%Z ->
     accuracy_rate (performance_metrics self') = accuracy_rate (performance_metrics self)).
Proof.
  unfold execute_prediction_trades.
  destruct (execute_loop_counts execute_trade now signals
              {| self_ := self;
                 execution_results :=
                   {| successful := 0; failed := 0; total_volume := 0; trades := [] |} |})
    as (fr & Hloop & Hsub & Hpm & _ & _ & Hok & Hfail & Htr & _).
  simpl in *. rewrite Hloop.
  unfold update_performance_metrics. run_monad. simpl.
  eexists. eexists. split; [reflexivity|]. simpl.
  pose proof (count_total execute_trade signals) as Htot.
  rewrite Hpm. rewrite Hsub.
  split; [reflexivity|]. split; [lia|]. split; [lia|]. split; [lia|].
  split; [reflexivity|]. split; [reflexivity|]. split.
  - intros Hpos. apply Z.ltb_lt in Hpos. now rewrite Hpos.
  - intros Hle. apply Z.ltb_ge in Hle. now rewrite Hle.
Qed.

End Reports.

(** ** The confidence threshold, on both paths *)



(** ** Concrete bridges, consensus records and signals *)

(** The bridge of a process that finds neither configuration file:
    [load_config] gives [{}], [load_trading_config] the default. *)
Definition default_bridge : Bridge := init (PDict ∅) get_default_trading_config.

(** The two records of [mock_consensus] in [main]. *)
Definition btc_consensus : Consensus.t :=
  {| Consensus.asset := Some "BTC";
     Consensus.signal_strength := Some 0.75%Q;
     Consensus.confidence := Some 0.82%Q;
     Consensus.agent_count := Some 5%Z;
     Consensus.prediction_data :=
       Some (PDict (<["question" := PStr "Will BTC be above $100k by March 2025?"]>
                   (<["consensus" := PStr "bullish"]> ∅))) |}.

Definition eth_consensus : Consensus.t :=
  {| Consensus.asset := Some "ETH";
     Consensus.signal_strength := Some (-0.45)%Q;
     Consensus.confidence := Some 0.73%Q;
     Consensus.agent_count := Some 4%Z;
     Consensus.prediction_data :=
       Some (PDict (<["question" := PStr "Will ETH outperform BTC this month?"]>
                   (<["consensus" := PStr "bearish"]> ∅))) |}.




(** The signals that the bridge builds from [mock_consensus]. *)
Definition btc_signal : Signal.t :=
  {| Signal.id := "pred_BTC_0";
     Signal.source := "prediction_venue";
     Signal.timestamp := 0;
     Signal.trading_pair := "BTC-USDT";
     Signal.direction := long;
     Signal.size := 0.015375;
     Signal.confidence := 0.82;
     Signal.signal_strength := 0.75;
     Signal.entry_type := "market";
     Signal.stop_loss := PFloat 0.015;
     Signal.take_profit := PFloat 0.03;
     Signal.reasoning := PredictionConsensus 0.75 0.82 5;
     Signal.prediction_data := btc_consensus;
     Signal.expiry := 86400 |}.

Definition eth_signal : Signal.t :=
  {| Signal.id := "pred_ETH_0";
     Signal.source := "prediction_venue";
     Signal.timestamp := 0;
     Signal.trading_pair := "ETH-USDT";
     Signal.direction := short;
     Signal.size := 0.0082125;
     Signal.confidence := 0.73;
     Signal.signal_strength := 0.45;
     Signal.entry_type := "market";
     Signal.stop_loss := PFloat 0.015;
     Signal.take_profit := PFloat 0.03;
     Signal.reasoning := PredictionConsensus (-0.45) 0.73 4;
     Signal.prediction_data := eth_consensus;
     Signal.expiry := 86400 |}.

Lemma mock_consensus_signals :
  exists s1 s2,
    process_prediction_signals get_current_exposure_mock 0 [btc_consensus; eth_consensus]
      default_bridge = (Ok [s1; s2], default_bridge) /\
    (Signal.id s1, Signal.trading_pair s1, Signal.direction s1, Signal.stop_loss s1,
     Signal.take_profit s1, Signal.prediction_data s1)
      = (Signal.id btc_signal, Signal.trading_pair btc_signal, Signal.direction btc_signal,
         Signal.stop_loss btc_signal, Signal.take_profit btc_signal,
         Signal.prediction_data btc_signal) /\
    (Signal.size s1 == Signal.size btc_signal)%Q /\
    (Signal.id s2, Signal.trading_pair s2, Signal.direction s2, Signal.stop_loss s2,
     Signal.take_profit s2, Signal.prediction_data s2)
      = (Signal.id eth_signal, Signal.trading_pair eth_signal, Signal.direction eth_signal,
         Signal.stop_loss eth_signal, Signal.take_profit eth_signal,
         Signal.prediction_data eth_signal) /\
    (Signal.size s2 == Signal.size eth_signal)%Q /\
    (Signal.signal_strength s2 == Signal.signal_strength eth_signal)%Q.
Proof.
  eexists. eexists. split; [vm_compute; reflexivity|].
  repeat split.
Qed.

Lemma signal_keeps_magnitude_and_record_witness :
  exists sig,
    create_trading_signal get_current_exposure_mock 0 eth_consensus default_bridge
      = (Ok (Some sig), default_bridge) /\
    exists s,
      Consensus.signal_strength eth_consensus = Some s /\
      Signal.signal_strength sig = Qabs s /\
      (0 <= Signal.signal_strength sig)%Q /\
      Signal.direction sig = (if Qlt_bool 0 s then long else short) /\
      Signal.prediction_data sig = eth_consensus /\
      Consensus.signal_strength (Signal.prediction_data sig) = Some s.
Proof.
  eexists. split; [vm_compute; reflexivity|].
  eapply (signal_keeps_magnitude_and_record get_current_exposure_mock 0 eth_consensus
            default_bridge default_bridge).
  vm_compute. reflexivity.
Defined.



(** An engine that accepts the order and reports no volume yet. *)
Definition pending_engine (trade_params : TradeParams) : result pyval :=
  Ok (PDict (<["trade_id" := PStr "T1"]>
            (<["price" := PFloat 100.0]>
            (<["volume" := PNone]> ∅)))).

(** C6, on a batch of one signal and an engine whose answer carries
    ['volume': None]. The order is submitted; the signal is counted as
    successful, then the addition to [total_volume] raises inside the same
    [try] and the signal is counted as failed too: successful + failed is 2
    for a batch of 1. *)
Theorem volume_none_counted_twice :
  exists report self',
    execute_prediction_trades pending_engine 0 [btc_signal] default_bridge = (Ok report, self') /\
    submitted self' = [params_of btc_signal] /\
    successful report = 1%Z /\
    failed report = 1%Z /\
    (successful report + failed report)%Z <> Z.of_nat (length [btc_signal]).
Proof.
  eexists. eexists. split; [vm_compute; reflexivity|].
  repeat split. discriminate.
Qed.

(** An engine that refuses ETH orders and fills the others as the mock
    engine does. *)
Definition selective_engine (trade_params : TradeParams) : result pyval :=
  if String.eqb (symbol trade_params) "ETH-USDT"
  then Raise (BackendError "insufficient margin")
  else mock_execute_trade 0 trade_params.

(** C7, on a batch of two signals of which the engine fills one. The report
    counts one success and one failure; the metrics then hold
    [total_signals = 1], not 2, and [accuracy_rate = 1], not 1/2:
    [update_performance_metrics] adds the length of [trades], which holds
    the successful executions only. *)
Theorem failed_signal_not_in_total :
  exists report self',
    execute_prediction_trades selective_engine 0 [btc_signal; eth_signal] default_bridge
      = (Ok report, self') /\
    successful report = 1%Z /\
    failed report = 1%Z /\
    total_signals (performance_metrics self') = 1%Z /\
    executed_trades (performance_metrics self') = 1%Z /\
    (accuracy_rate (performance_metrics self') == 1)%Q /\
    ~ (accuracy_rate (performance_metrics self') == 1 / 2)%Q.
Proof.
  eexists. eexists. split; [vm_compute; reflexivity|].
  repeat split. discriminate.
Qed.

End BridgeProps.

(** * More of the code *)

From Stdlib Require Import Lqa.

(** ** scripts/trading_integration.py: monitoring of the open trades *)

Module Monitoring.
Import TradingIntegration.

(** [metrics_data] of [save_performance_metrics]: what is written to
    [output/prediction_trading_performance.json]. *)
Record MetricsData := {
  metrics : PerformanceMetrics;
  last_updated : Z;
  active_trades : Z
}.

(** The placeholder of the source:
    [async def calculate_trade_pnl(self, trade): return 0.0]. *)
Definition calculate_trade_pnl_mock (trade : TradeRecord) : result Q := Ok 0.0%Q.

Definition is_open (trade : TradeRecord) : bool :=
  match status trade with
  | open => true
  | profitable => false
  end.

Section Monitor.

(** The profit and loss of a trade at the current price. *)
Variable calculate_trade_pnl : TradeRecord -> result Q.
(** Creating the [output] directory and writing the file. *)
Variable write_metrics : MetricsData -> result unit.
(** [datetime.now()], in seconds. *)
Variable now : Z.

(** [trade['pnl'] = current_pnl], and for a positive [current_pnl] also
    [trade['status'] = 'profitable']. *)
Definition update_trade (trade : TradeRecord) (current_pnl : Q) : TradeRecord :=
  {| rec_id := rec_id trade;
     rec_prediction_data := rec_prediction_data trade;
     execution_data := execution_data trade;
     opened_at := opened_at trade;
     status := if Qlt_bool 0 current_pnl then profitable else status trade;
     pnl := current_pnl |}.

(** The loop of [monitor_prediction_trades] over the trade dictionaries,
    which it updates in place: the exception that stopped it, if any, the
    trades as they are then, and [performance_metrics['profitable_trades']]. *)
Fixpoint monitor_loop (trades : list TradeRecord) (profitable_trades : Z)
  : option exn * list TradeRecord * Z :=
  match trades with
  | [] => (None, [], profitable_trades)
  | trade :: rest =>
      if is_open trade then
        match calculate_trade_pnl trade with
        | Raise e => (Some e, trade :: rest, profitable_trades)
        | Ok current_pnl =>
            let n := if Qlt_bool 0 current_pnl then (profitable_trades + 1)%Z
                     else profitable_trades in
            let '(e, rest', n') := monitor_loop rest n in
            (e, update_trade trade current_pnl :: rest', n')
        end
      else
        let '(e, rest', n') := monitor_loop rest profitable_trades in
        (e, trade :: rest', n')
  end.

Definition metrics_data (self : Bridge) : MetricsData :=
  {| metrics := performance_metrics self;
     last_updated := now;
     active_trades := Z.of_nat (length (List.filter is_open (prediction_trades self))) |}.

Definition save_performance_metrics : M Bridge unit := fun self =>
  (write_metrics (metrics_data self), self).

Definition monitor_prediction_trades : M Bridge unit := fun self =>
  let '(e, trades, n) :=
    monitor_loop (prediction_trades self) (profitable_trades (performance_metrics self)) in
  let pm := performance_metrics self in
  let self' :=
    {| venue_config := venue_config self;
       trading_config := trading_config self;
       prediction_trades := trades;
       performance_metrics :=
         {| total_signals := total_signals pm;
            executed_trades := executed_trades pm;
            profitable_trades := n;
            total_pnl := total_pnl pm;
            accuracy_rate := accuracy_rate pm;
            avg_hold_time := avg_hold_time pm |};
       submitted := submitted self |} in
  match e with
  | Some e => (Raise e, self')
  | None => save_performance_metrics self'
  end.

End Monitor.

End Monitoring.

(** ** scripts/venue_manager.py: creation of markets *)

Module Markets.
Import VenueManager.

(** [mock_prices] of [get_current_price]. *)
Definition mock_prices : gmap string Q :=
  <["BTC" := 95000%Q]> (<["ETH" := 3200%Q]> (<["SOL" := 180%Q]>
  (<["ARB" := 0.85%Q]> (<["AVAX" := 32%Q]> ∅)))).

Definition get_current_price (asset : string) : Q :=
  default 100%Q (mock_prices !! asset).

Definition crypto_assets : list string := ["BTC"; "ETH"; "SOL"; "ARB"; "AVAX"].

Definition tech_trends : list string :=
  ["Quantum computing breakthrough in 2025";
   "AI chip shortage resolved by Q3 2025";
   "Autonomous vehicles in 3+ cities by 2025"].

(** The text of the ["question"] entry, kept as its interpolated values. *)
Inductive Question :=
| CryptoQuestion (asset : string) (target_price : Q) (expiry : Z)
| AiQuestion
| TechQuestion (trend : string).

(** A market dictionary as its creator builds it: the keys that the cycle
    reads ([market]) and the keys that only describe the market. *)
Record NewMarket := {
  market : Market;
  question : Question;
  target_price : option Q;
  current_price : option Q;
  target_accuracy : option Q;
  measurement_period : option string;
  trend_topic : option string
}.

Definition days (n : Z) : Z := (n * 86400)%Z.

Section Creation.

(** [int(time.time())] and [datetime.now()], in seconds. One call of
    [create_new_markets] reads each clock several times; the reads of one
    call are taken at the same instant. *)
Variable time : Z.
Variable now : Z.

(** [xs[time % len(xs)]]. *)
Definition pick (xs : list string) : string :=
  nth (Z.to_nat (time mod Z.of_nat (length xs))) xs ""%string.

Definition create_crypto_market : NewMarket :=
  let asset := pick crypto_assets in
  let price := get_current_price asset in
  let target := (price * 1.15)%Q in
  let expiry := (now + days 30)%Z in
  {| market :=
       {| market_id := "crypto_" +:+ asset +:+ "_" +:+ pretty time;
          market_type := "crypto_price";
          market_asset := Some asset;
          participants := Some [];
          created := now;
          market_expiry := expiry |};
     question := CryptoQuestion asset target expiry;
     target_price := Some target;
     current_price := Some price;
     target_accuracy := None;
     measurement_period := None;
     trend_topic := None |}.

Definition create_ai_market : NewMarket :=
  {| market :=
       {| market_id := "ai_perf_" +:+ pretty time;
          market_type := "ai_performance";
          market_asset := None;
          participants := Some [];
          created := now;
          market_expiry := (now + days 30)%Z |};
     question := AiQuestion;
     target_price := None;
     current_price := None;
     target_accuracy := Some 0.65%Q;
     measurement_period := Some "monthly"%string;
     trend_topic := None |}.

Definition create_tech_market : NewMarket :=
  let trend := pick tech_trends in
  {| market :=
       {| market_id := "tech_" +:+ pretty time;
          market_type := "tech_trends";
          market_asset := None;
          participants := Some [];
          created := now;
          market_expiry := (now + days 90)%Z |};
     question := TechQuestion trend;
     target_price := None;
     current_price := None;
     target_accuracy := None;
     measurement_period := None;
     trend_topic := Some trend |}.

(** [d[k] = v] on a dictionary kept in the order of insertion: the value of
    an existing key is replaced where it is, a new key goes last. *)
Fixpoint dict_set (k : string) (v : Market) (d : list (string * Market))
  : list (string * Market) :=
  match d with
  | [] => [(k, v)]
  | (k', v') :: rest =>
      if String.eqb k' k then (k, v) :: rest else (k', v') :: dict_set k v rest
  end.

(** [stats[k] += 1]. *)
Definition py_incr (stats : pyval) (k : string) : result pyval :=
  match stats with
  | PDict d =>
      match d !! k with
      | Some (PInt n) => Ok (PDict (<[k := PInt (n + 1)]> d))
      | Some (PBool b) => Ok (PDict (<[k := PInt ((if b then 1 else 0) + 1)]> d))
      | Some (PFloat q) => Ok (PDict (<[k := PFloat (q + 1)]> d))
      | Some _ => Raise TypeError
      | None => Raise (KeyError k)
      end
  | _ => Raise TypeError
  end.

(** The chain of [if]/[elif] of [create_new_markets]: what the local
    variable [market] is bound to afterwards. An unknown type leaves the
    variable as the previous turn of the loop left it. *)
Definition create_for (market_type : pyval) (previous : option NewMarket) : option NewMarket :=
  match market_type with
  | PStr ty =>
      if String.eqb ty "crypto_price" then Some create_crypto_market
      else if String.eqb ty "ai_performance" then Some create_ai_market
      else if String.eqb ty "tech_trends" then Some create_tech_market
      else previous
  | _ => previous
  end.

(** One turn of the loop of [create_new_markets], with its [try]: the venue
    afterwards and the binding of [market]. Reading [market] while it is
    unbound raises ([UnboundLocalError]); the handler logs and goes on, as
    it does when the counter cannot be incremented. *)
Definition create_one (market_type : pyval) (previous : option NewMarket) (v : Venue)
  : Venue * option NewMarket :=
  match create_for market_type previous with
  | None => (v, None)
  | Some m =>
      let registered := dict_set (market_id (market m)) (market m) (active_markets v) in
      match py_incr (venue_stats v) "total_markets_created" with
      | Ok stats =>
          ({| config := config v; active_markets := registered;
              trading_signals := trading_signals v; venue_stats := stats |}, Some m)
      | Raise _ =>
          ({| config := config v; active_markets := registered;
              trading_signals := trading_signals v; venue_stats := venue_stats v |}, Some m)
      end
  end.

(** [for market_type in market_types] of [create_new_markets]. *)
Fixpoint create_new_markets_loop (market_types : list pyval) (previous : option NewMarket)
    (v : Venue) : Venue :=
  match market_types with
  | [] => v
  | market_type :: rest =>
      let '(v', bound) := create_one market_type previous v in
      create_new_markets_loop rest bound v'
  end.

End Creation.

End Markets.

(** ** launch_venue.py: the loop that drives the venue and the bridge *)

Module Launcher.
Import TradingIntegration Monitoring.

(** The launcher with its two components. [pauses] are the arguments of
    the calls of [asyncio.sleep] so far. *)
Record System := {
  venue : VenueManager.Process;
  trading_bridge : Bridge;
  cycle_count : Z;
  pauses : list Z
}.

Definition on_venue_process {A} (m : M VenueManager.Process A) : M System A := fun s =>
  let '(r, p) := m (venue s) in
  (r, {| venue := p; trading_bridge := trading_bridge s;
         cycle_count := cycle_count s; pauses := pauses s |}).

Definition on_bridge {A} (m : M Bridge A) : M System A := fun s =>
  let '(r, b) := m (trading_bridge s) in
  (r, {| venue := venue s; trading_bridge := b;
         cycle_count := cycle_count s; pauses := pauses s |}).

Definition sleep (seconds : Z) : M System unit :=
  modify_state (fun s =>
    {| venue := venue s; trading_bridge := trading_bridge s;
       cycle_count := cycle_count s; pauses := pauses s ++ [seconds] |}).

Definition next_cycle : M System unit :=
  modify_state (fun s =>
    {| venue := venue s; trading_bridge := trading_bridge s;
       cycle_count := (cycle_count s + 1)%Z; pauses := pauses s |}).

(** [get_consensus_data]: "For now, return empty list". *)
Definition get_consensus_data : M System (list Consensus.t) := mret [].

Section Loop.

(** The cycle of the venue, [AutomatedPredictionVenue.run_venue_cycle]. *)
Variable run_venue_cycle : M VenueManager.Process unit.
Variable get_current_exposure : string -> result Z.
Variable execute_trade : TradeParams -> result pyval.
Variable calculate_trade_pnl : TradeRecord -> result Q.
Variable write_metrics : MetricsData -> result unit.
(** Writing [output/system_metrics.json] from the cycle count, the
    statistics of the venue and the metrics of the bridge. *)
Variable write_system_metrics : Z -> pyval -> PerformanceMetrics -> result unit.
Variable now : Z.

Definition update_system_metrics : M System unit :=
  s ← get_state;
  liftR (write_system_metrics (cycle_count s)
           (VenueManager.venue_stats (VenueManager.self (venue s)))
           (performance_metrics (trading_bridge s))).

(** The statements under [try] in [run_main_loop]. *)
Definition turn_body : M System unit :=
  on_venue_process run_venue_cycle;;
  consensus_data ← get_consensus_data;
  match consensus_data with
  | [] => mret tt
  | _ :: _ =>
      trading_signals ← on_bridge (process_prediction_signals get_current_exposure now
                                     consensus_data);
      match trading_signals with
      | [] => mret tt
      | _ :: _ =>
          on_bridge (execute_prediction_trades execute_trade now trading_signals);;
          mret tt
      end
  end;;
  on_bridge (monitor_prediction_trades calculate_trade_pnl write_metrics now);;
  update_system_metrics;;
  sleep (30 * 60).

(** One turn of [while self.running]. [stop] tells whether the loop ends
    here: [self.running] was cleared, or a [KeyboardInterrupt] arrives. *)
Definition turn (stop : bool) (s : System) : VenueManager.LoopState * System :=
  if stop then (VenueManager.Stopped, s)
  else
    match (next_cycle;; try_except turn_body (fun e => sleep 60)) s with
    | (_, s') => (VenueManager.Running, s')
    end.

Fixpoint run_main_loop (stops : list bool) (s : System) : VenueManager.LoopState * System :=
  match stops with
  | [] => (VenueManager.Running, s)
  | stop :: rest =>
      match turn stop s with
      | (VenueManager.Running, s') => run_main_loop rest s'
      | (VenueManager.Stopped, s') => (VenueManager.Stopped, s')
      end
  end.

End Loop.

End Launcher.

(** * More properties of the trading bridge *)

Module BridgeExtras.
Import TradingIntegration BridgeProps Monitoring.


(** X1. For a cap >= 0 the bridge's [calculate_position_size] returns
    clamp(cap × |signal_strength| × confidence, 0.25 × cap, cap), which lies
    between a quarter of the cap and the cap, and leaves the bridge as it
    was. *)
Theorem bridge_size_clamp (self : Bridge) (max_size signal_strength confidence : Q) :
  max_position_size self max_size ->
  (0 <= max_size)%Q ->
  exists size,
    calculate_position_size signal_strength confidence self = (Ok size, self) /\
    (size == clamp (max_size * Qabs signal_strength * confidence) (0.25 * max_size) max_size)%Q /\
    (0.25 * max_size <= size <= max_size)%Q.
Proof.
  intros Hcfg Hpos.
  destruct (bridge_size_is_clamped self max_size signal_strength confidence Hcfg Hpos)
    as (size & H1 & H2 & H3).
  exists size. split; [exact H1|]. split; [exact H2|exact H3].
Qed.

Lemma default_cap : max_position_size default_bridge 0.025.
Proof. exists (PFloat 0.025). split; reflexivity. Qed.

Lemma bridge_size_clamp_witness :
  max_position_size default_bridge 0.025 /\
  (0 <= 0.025)%Q /\
  exists size,
    calculate_position_size 0.75 0.82 default_bridge = (Ok size, default_bridge) /\
    (size == clamp (0.025 * Qabs 0.75 * 0.82) (0.25 * 0.025) 0.025)%Q /\
    (0.25 * 0.025 <= size <= 0.025)%Q.
Proof.
  split; [exact default_cap|]. split; [discriminate|].
  apply (bridge_size_clamp default_bridge 0.025 0.75 0.82 default_cap). discriminate.
Defined.

Section SizingMore.

Lemma clamp_at_floor (x lo hi : Q) :
  (lo < hi)%Q -> ((clamp x lo hi == lo)%Q <-> (x <= lo)%Q).
Proof.
  intros Hlt. unfold clamp.
  destruct (Qlt_bool x lo) eqn:H1.
  - apply Qlt_bool_iff in H1. split; [intros _; now apply Qlt_le_weak|reflexivity].
  - apply Qlt_bool_false in H1.
    destruct (Qlt_bool hi x) eqn:H2.
    + apply Qlt_bool_iff in H2. split.
      * intros Heq. rewrite Heq in Hlt. now apply Qlt_irrefl in Hlt.
      * intros Hle. exfalso. apply (Qlt_irrefl lo).
        eapply Qlt_le_trans; [exact Hlt|]. eapply Qle_trans; [|exact Hle]. now apply Qlt_le_weak.
    + split.
      * intros Heq. rewrite Heq. apply Qle_refl.
      * intros Hle. now apply Qle_antisym.
Qed.

(** X2. For a positive cap, the bridge gives a consensus the floor size
    0.25 × cap exactly when |signal_strength| × confidence <= 0.25. *)
Theorem weak_consensus_gets_floor (self : Bridge) (max_size signal_strength confidence : Q) :
  max_position_size self max_size ->
  (0 < max_size)%Q ->
  exists size,
    calculate_position_size signal_strength confidence self = (Ok size, self) /\
    ((size == 0.25 * max_size)%Q <-> (Qabs signal_strength * confidence <= 0.25)%Q).
Proof.
  intros Hcfg Hpos.
  destruct (bridge_size_is_clamped self max_size signal_strength confidence Hcfg)
    as (size & Hsz & Hcl & _); [now apply Qlt_le_weak|].
  exists size. split; [exact Hsz|]. rewrite Hcl.
  rewrite clamp_at_floor.
  - split; intros H.
    + apply Qmult_le_l with (z := max_size); [exact Hpos|].
      rewrite Qmult_assoc. rewrite (Qmult_comm max_size 0.25). exact H.
    + rewrite <- Qmult_assoc. rewrite (Qmult_comm 0.25 max_size).
      apply Qmult_le_l; assumption.
  - rewrite <- (Qmult_1_l max_size) at 2. apply Qmult_lt_compat_r; [exact Hpos|reflexivity].
Qed.

End SizingMore.

Section CreationMore.

Variable get_current_exposure : string -> result Z.
Variable now : Z.

Abbreviation create' := (create_trading_signal get_current_exposure now).

(** Everything that a successful [create_trading_signal] went through. *)
Lemma create_trading_signal_inv (c : Consensus.t) (self self' : Bridge) (sig : Signal.t) :
  create' c self = (Ok (Some sig), self') ->
  exists a s conf agents pair d sl tp,
    Consensus.asset c = Some a /\
    Consensus.signal_strength c = Some s /\
    Consensus.confidence c = Some conf /\
    Consensus.agent_count c = Some agents /\
    map_asset_to_pair a = Some pair /\
    calculate_position_size s conf self = (Ok (Signal.size sig), self) /\
    assess_trade_risk get_current_exposure pair (if Qlt_bool 0 s then long else short)
      (Signal.size sig) self = (Ok d, self) /\
    approved d = true /\ stop_loss d = Some sl /\ take_profit d = Some tp /\
    self' = self /\
    sig = {| Signal.id := "pred_" +:+ a +:+ "_" +:+ pretty now;
             Signal.source := "prediction_venue";
             Signal.timestamp := now;
             Signal.trading_pair := pair;
             Signal.direction := if Qlt_bool 0 s then long else short;
             Signal.size := Signal.size sig;
             Signal.confidence := conf;
             Signal.signal_strength := Qabs s;
             Signal.entry_type := "market";
             Signal.stop_loss := sl;
             Signal.take_profit := tp;
             Signal.reasoning := PredictionConsensus s conf agents;
             Signal.prediction_data := c;
             Signal.expiry := (now + 24 * 3600)%Z |}.
Proof.
  unfold create_trading_signal, item. run_monad.
  destruct (Consensus.asset c) as [a|] eqn:Ha; [|discriminate].
  destruct (Consensus.signal_strength c) as [s|] eqn:Hs; [|discriminate].
  destruct (Consensus.confidence c) as [conf|] eqn:Hc; [|discriminate].
  destruct (map_asset_to_pair a) as [pair|] eqn:Hpair; [|discriminate].
  pose proof (calculate_position_size_frame s conf self) as Hfr.
  destruct (calculate_position_size s conf self) as [[sz|e] b1] eqn:Hsz; simpl in Hfr; subst b1;
    [|discriminate].
  destruct (assess_total get_current_exposure pair (if Qlt_bool 0 s then long else short) sz self)
    as (d & Hd).
  rewrite Hd.
  destruct (approved d) eqn:Happ; simpl; [|discriminate].
  destruct (stop_loss d) as [sl|] eqn:Hsl; [|discriminate].
  destruct (take_profit d) as [tp|] eqn:Htp; [|discriminate].
  destruct (Consensus.agent_count c) as [agents|] eqn:Hn; [|discriminate].
  intros [= <- <-]. simpl.
  exists a, s, conf, agents, pair, d, sl, tp. repeat split; try assumption; reflexivity.
Qed.

(** What an approval of [assess_trade_risk] has checked. *)
Lemma approval_inv (trading_pair : string) (dir : direction) (size : Q)
    (self self' : Bridge) (d : RiskDecision) :
  assess_trade_risk get_current_exposure trading_pair dir size self = (Ok d, self') ->
  approved d = true ->
  exists cur mev me mpv mp sl tp,
    get_current_exposure trading_pair = Ok cur /\
    config_get (trading_config self) "portfolio" "max_positions" (PInt 5) = Ok mev /\
    py_num mev = Ok me /\
    (inject_Z cur < me)%Q /\
    config_get (trading_config self) "risk_management" "max_position_size" (PFloat 0.02) = Ok mpv /\
    py_num mpv = Ok mp /\
    (size <= mp)%Q /\
    config_get (trading_config self) "risk_management" "stop_loss" (PFloat 0.015) = Ok sl /\
    config_get (trading_config self) "risk_management" "take_profit" (PFloat 0.03) = Ok tp /\
    stop_loss d = Some sl /\ take_profit d = Some tp.
Proof.
  unfold assess_trade_risk, assess_trade_risk_body. run_monad.
  destruct (get_current_exposure trading_pair) as [cur|e] eqn:H1; [|now intros [= <- _]].
  destruct (config_get (trading_config self) "portfolio" "max_positions" (PInt 5)) as [mev|e]
    eqn:H2; [|now intros [= <- _]].
  destruct (py_num mev) as [me|e] eqn:H3; [|now intros [= <- _]].
  destruct (Qle_bool me (inject_Z cur)) eqn:Hexp; [now intros [= <- _]|].
  destruct (config_get (trading_config self) "risk_management" "max_position_size" (PFloat 0.02))
    as [mpv|e] eqn:H5; [|now intros [= <- _]].
  destruct (py_num mpv) as [mp|e] eqn:H6; [|now intros [= <- _]].
  destruct (Qlt_bool mp size) eqn:Hsz; [now intros [= <- _]|].
  destruct (config_get (trading_config self) "risk_management" "stop_loss" (PFloat 0.015))
    as [sl|e] eqn:H8; [|now intros [= <- _]].
  destruct (config_get (trading_config self) "risk_management" "take_profit" (PFloat 0.03))
    as [tp|e] eqn:H9; [|now intros [= <- _]].
  intros [= <- _] _. exists cur, mev, me, mpv, mp, sl, tp.
  assert (Hlt : (inject_Z cur < me)%Q).
  { apply Qnot_le_lt. intros Hle. apply Qle_bool_iff in Hle. congruence. }
  assert (Hle : (size <= mp)%Q) by now apply Qlt_bool_false.
  repeat split; try assumption; reflexivity.
Qed.

(** X3. A signal that [create_trading_signal] returns has passed both risk
    checks: the exposure of its trading pair was read and is below
    [max_positions], its size is at most the [max_position_size] of the
    trading configuration, and its stop-loss and take-profit are the ones
    of that configuration (or the defaults of the lookups). *)
Theorem created_signal_passed_risk (c : Consensus.t) (self self' : Bridge) (sig : Signal.t) :
  create' c self = (Ok (Some sig), self') ->
  exists cur mev me mpv mp,
    get_current_exposure (Signal.trading_pair sig) = Ok cur /\
    config_get (trading_config self) "portfolio" "max_positions" (PInt 5) = Ok mev /\
    py_num mev = Ok me /\
    (inject_Z cur < me)%Q /\
    config_get (trading_config self) "risk_management" "max_position_size" (PFloat 0.02) = Ok mpv /\
    py_num mpv = Ok mp /\
    (Signal.size sig <= mp)%Q /\
    config_get (trading_config self) "risk_management" "stop_loss" (PFloat 0.015)
      = Ok (Signal.stop_loss sig) /\
    config_get (trading_config self) "risk_management" "take_profit" (PFloat 0.03)
      = Ok (Signal.take_profit sig).
Proof.
  intros H.
  destruct (create_trading_signal_inv c self self' sig H)
    as (a & s & conf & agents & pair & d & sl & tp & _ & _ & _ & _ & _ & _ & Hrisk & Happ
        & Hsl & Htp & _ & Hsig).
  destruct (approval_inv _ _ _ _ _ _ Hrisk Happ)
    as (cur & mev & me & mpv & mp & sl' & tp' & H1 & H2 & H3 & H4 & H5 & H6 & H7 & H8 & H9
        & Hsl' & Htp').
  assert (sl' = sl) by congruence. assert (tp' = tp) by congruence. subst sl' tp'.
  exists cur, mev, me, mpv, mp. rewrite Hsig. simpl. repeat split; assumption.
Qed.

(** X5. A consensus whose signal strength is zero, when it becomes a
    signal, becomes a [short] one, of signal strength 0 and of the floor
    size 0.25 × cap. *)
Theorem zero_strength_is_short (c : Consensus.t) (self self' : Bridge) (sig : Signal.t)
    (s max_size : Q) :
  create' c self = (Ok (Some sig), self') ->
  Consensus.signal_strength c = Some s ->
  (s == 0)%Q ->
  max_position_size self max_size ->
  (0 <= max_size)%Q ->
  Signal.direction sig = short /\
  (Signal.signal_strength sig == 0)%Q /\
  (Signal.size sig == 0.25 * max_size)%Q.
Proof.
  intros H Hs Hz Hcfg Hpos.
  destruct (create_trading_signal_inv c self self' sig H)
    as (a & s' & conf & agents & pair & d & sl & tp & _ & Hs' & _ & _ & _ & Hsz & _ & _
        & _ & _ & _ & Hsig).
  assert (s' = s) by congruence. subst s'.
  destruct (bridge_size_is_clamped self max_size s conf Hcfg Hpos) as (size & Hsz' & Hcl & _).
  assert (size = Signal.size sig) by congruence. subst size.
  assert (Hneg : Qlt_bool 0 s = false).
  { apply Qlt_bool_false. rewrite Hz. apply Qle_refl. }
  split; [|split].
  - rewrite Hsig. simpl. now rewrite Hneg.
  - rewrite Hsig. simpl. rewrite Hz. reflexivity.
  - rewrite Hcl. unfold clamp.
    assert (Hx : (max_size * Qabs s * conf == 0)%Q) by (rewrite Hz; change (Qabs 0) with 0%Q; ring).
    destruct (Qlt_bool _ (0.25 * max_size)) eqn:H1; [reflexivity|].
    apply Qlt_bool_false in H1. rewrite Hx in H1.
    destruct (Qlt_bool max_size _) eqn:H2.
    + apply Qlt_bool_iff in H2. rewrite Hx in H2. exfalso.
      exact (Qlt_not_le _ _ H2 Hpos).
    + rewrite Hx. apply Qle_antisym; [|exact H1].
      apply Qmult_le_0_compat; [discriminate|exact Hpos].
Qed.

End CreationMore.

Section DefaultLimits.

Variable get_current_exposure : string -> result Z.
Variable now : Z.

Lemma default_size (s conf : Q) :
  calculate_position_size s conf default_bridge =
    (Ok (py_max (0.025 * 0.25) (py_min (0.025 * Qabs s * conf) (0.025 * 1.0))), default_bridge).
Proof. reflexivity. Qed.

Lemma default_size_above_limit (s conf : Q) :
  (0.8 < Qabs s * conf)%Q ->
  Qlt_bool 0.02 (py_max (0.025 * 0.25) (py_min (0.025 * Qabs s * conf) (0.025 * 1.0))) = true.
Proof.
  intros H. apply Qlt_bool_iff.
  assert (Hx : (0.025 * Qabs s * conf == 0.025 * (Qabs s * conf))%Q) by ring.
  set (t := (Qabs s * conf)%Q) in *.
  unfold py_max, py_min.
  destruct (Qlt_bool (0.025 * 1.0) _) eqn:H1;
    destruct (Qlt_bool (0.025 * 0.25) _) eqn:H2;
    try apply Qlt_bool_iff in H1; try apply Qlt_bool_iff in H2;
    try apply Qlt_bool_false in H1; try apply Qlt_bool_false in H2;
    try rewrite Hx in *; try lra; try reflexivity.
Qed.

Lemma default_size_within_limit (s conf : Q) :
  (Qabs s * conf <= 0.8)%Q ->
  Qlt_bool 0.02 (py_max (0.025 * 0.25) (py_min (0.025 * Qabs s * conf) (0.025 * 1.0))) = false.
Proof.
  intros H. apply Qlt_bool_false.
  assert (Hx : (0.025 * Qabs s * conf == 0.025 * (Qabs s * conf))%Q) by ring.
  set (t := (Qabs s * conf)%Q) in *.
  unfold py_max, py_min.
  destruct (Qlt_bool (0.025 * 1.0) _) eqn:H1;
    destruct (Qlt_bool (0.025 * 0.25) _) eqn:H2;
    try apply Qlt_bool_iff in H1; try apply Qlt_bool_iff in H2;
    try apply Qlt_bool_false in H1; try apply Qlt_bool_false in H2;
    try rewrite Hx in *; try lra; try discriminate.
Qed.

Lemma assess_approves (trading_pair : string) (dir : direction) (size : Q) (self : Bridge)
    (cur : Z) (mev mpv sl tp : pyval) (me mp : Q) :
  get_current_exposure trading_pair = Ok cur ->
  config_get (trading_config self) "portfolio" "max_positions" (PInt 5) = Ok mev ->
  py_num mev = Ok me ->
  Qle_bool me (inject_Z cur) = false ->
  config_get (trading_config self) "risk_management" "max_position_size" (PFloat 0.02) = Ok mpv ->
  py_num mpv = Ok mp ->
  Qlt_bool mp size = false ->
  config_get (trading_config self) "risk_management" "stop_loss" (PFloat 0.015) = Ok sl ->
  config_get (trading_config self) "risk_management" "take_profit" (PFloat 0.03) = Ok tp ->
  assess_trade_risk get_current_exposure trading_pair dir size self =
    (Ok {| approved := true; reason := TradeApproved;
           stop_loss := Some sl; take_profit := Some tp |}, self).
Proof.
  intros Hcur Hmev Hme Hexp Hmpv Hmp Hsz Hsl Htp.
  unfold assess_trade_risk, assess_trade_risk_body. run_monad.
  now rewrite Hcur, Hmev, Hme, Hexp, Hmpv, Hmp, Hsz, Hsl, Htp.
Qed.

(** X4. With the default configurations the cap of the sizing (0.025) is
    above the limit of the risk check (0.02): a complete consensus for a
    supported asset with |signal_strength| × confidence >= 0.800000001
    never becomes a signal, whatever the exposure lookup answers, and one
    with |signal_strength| × confidence <= 0.799999999 does whenever the
    exposure is below 5. The margin of 10^-9 around 0.8 keeps the statement
    away from the products that the rounding of binary64 decides: there
    the source computes 0.025 × 1.0 × 0.8 as a number above 0.02. *)
Theorem default_limits_drop_strong_consensus (c : Consensus.t) (a pair : string)
    (s conf : Q) (agents : Z) :
  Consensus.asset c = Some a ->
  Consensus.signal_strength c = Some s ->
  Consensus.confidence c = Some conf ->
  Consensus.agent_count c = Some agents ->
  map_asset_to_pair a = Some pair ->
  ((0.800000001 <= Qabs s * conf)%Q ->
   create_trading_signal get_current_exposure now c default_bridge = (Ok None, default_bridge)) /\
  ((Qabs s * conf <= 0.799999999)%Q ->
   forall cur, get_current_exposure pair = Ok cur -> (cur < 5)%Z ->
   exists sig,
     create_trading_signal get_current_exposure now c default_bridge
       = (Ok (Some sig), default_bridge)).
Proof.
  intros Ha Hs Hc Hn Hpair. split.
  - intros Hmargin.
    assert (Hstrong : (0.8 < Qabs s * conf)%Q)
      by (eapply Qlt_le_trans; [|exact Hmargin]; reflexivity).
    unfold create_trading_signal, item. run_monad.
    rewrite Ha, Hs, Hc, Hpair. simpl. rewrite default_size.
    match goal with |- context [assess_trade_risk _ ?p ?d ?sz ?b] =>
      destruct (assess_total get_current_exposure p d sz b) as (dec & Hdec);
      rewrite Hdec end.
    destruct (approved dec) eqn:Happ; [|reflexivity].
    exfalso.
    destruct (approval_inv get_current_exposure _ _ _ _ _ _ Hdec Happ)
      as (cur & mev & me & mpv & mp & sl & tp & _ & _ & _ & _ & H5 & H6 & H7 & _).
    change (config_get (trading_config default_bridge) "risk_management" "max_position_size"
              (PFloat 0.02)) with (@Ok pyval (PFloat 0.02)) in H5.
    injection H5 as <-. change (py_num (PFloat 0.02)) with (@Ok Q 0.02%Q) in H6.
    injection H6 as <-.
    apply (proj2 (Qlt_bool_false _ _)) in H7.
    rewrite (default_size_above_limit s conf Hstrong) in H7. discriminate.
  - intros Hmargin cur Hcur Hlt.
    assert (Hweak : (Qabs s * conf <= 0.8)%Q)
      by (eapply Qle_trans; [exact Hmargin|]; discriminate).
    assert (Hexp : Qle_bool (inject_Z 5) (inject_Z cur) = false).
    { destruct (Qle_bool (inject_Z 5) (inject_Z cur)) eqn:E; [|reflexivity].
      apply Qle_bool_iff in E. rewrite <- Zle_Qle in E. lia. }
    unfold create_trading_signal, item. run_monad.
    rewrite Ha, Hs, Hc, Hpair. simpl. rewrite default_size.
    rewrite (assess_approves pair _ _ default_bridge cur (PInt 5) (PFloat 0.02)
               (PFloat 0.015) (PFloat 0.03) (inject_Z 5) 0.02 Hcur eq_refl eq_refl Hexp
               eq_refl eq_refl (default_size_within_limit s conf Hweak) eq_refl eq_refl).
    simpl. rewrite Hn. eexists. reflexivity.
Qed.

End DefaultLimits.


Lemma upper_ascii_idem (c : ascii) : upper_ascii (upper_ascii c) = upper_ascii c.
Proof.
  destruct c as [[] [] [] [] [] [] [] []]; reflexivity.
Qed.

Lemma upper_idem (s : string) : upper (upper s) = upper s.
Proof.
  induction s as [|c s IH]; simpl; [reflexivity|].
  now rewrite upper_ascii_idem, IH.
Qed.

(** The strings of ASCII characters: every byte is below 128. *)
Definition is_ascii (c : ascii) : bool := (nat_of_ascii c <? 128)%nat.

Fixpoint ascii_text (s : string) : bool :=
  match s with
  | EmptyString => true
  | String c rest => is_ascii c && ascii_text rest
  end.

(** X6. For an asset written in ASCII, [map_asset_to_pair] finds a pair
    exactly when the upper-case form of the asset is BTC, ETH, SOL, ARB or
    AVAX; the pair is that form followed by "-USDT"; the case of the
    letters of the asset does not matter. *)
Theorem map_asset_to_pair_spec (asset : string) :
  ascii_text asset = true ->
  (forall pair,
     map_asset_to_pair asset = Some pair <->
     In (upper asset) ["BTC"; "ETH"; "SOL"; "ARB"; "AVAX"]%string /\
     pair = (upper asset +:+ "-USDT")%string) /\
  map_asset_to_pair (upper asset) = map_asset_to_pair asset.
Proof.
  intros _. split.
  - intros pair. unfold map_asset_to_pair, asset_mapping.
    generalize (upper asset) as k. intros k.
    rewrite !lookup_insert_Some, lookup_empty. simpl. split.
    + intros H. repeat (destruct H as [[<- <-]|[_ H]]; [split; [tauto|reflexivity]|]).
      discriminate.
    + intros [H ->].
      repeat (destruct H as [<-|H];
              [repeat first [left; split; reflexivity | right; split; [discriminate|]]|]).
      destruct H.
  - unfold map_asset_to_pair. now rewrite upper_idem.
Qed.

Section ProcessMore.

Variable get_current_exposure : string -> result Z.
Variable now : Z.

(** X7. [process_prediction_signals] never raises and leaves the bridge as
    it was; the consensus records of the signals it returns are a
    subsequence of its input: nothing is reordered, repeated or invented. *)
Theorem process_keeps_order (consensus_data : list Consensus.t) (self : Bridge) :
  exists signals,
    process_prediction_signals get_current_exposure now consensus_data self = (Ok signals, self) /\
    sublist (map Signal.prediction_data signals) consensus_data.
Proof.
  induction consensus_data as [|c cs IH]; simpl.
  - exists []. split; [reflexivity|]. constructor.
  - destruct (process_one_spec get_current_exposure now c self) as (o & Ho & Hsig).
    destruct IH as (sigs & Hp & Hsub).
    run_monad. rewrite Ho, Hp. destruct o as [sig|].
    + exists (sig :: sigs). split; [reflexivity|]. simpl.
      destruct (Hsig sig eq_refl) as [-> _]. now constructor.
    + exists sigs. split; [reflexivity|]. now constructor.
Qed.

(** X8. When the execution threshold of the venue configuration cannot be
    read as a number, [process_prediction_signals] returns no signal for
    any batch, and raises nothing: every consensus is dropped by the
    handler of the loop. *)
Theorem bad_threshold_drops_everything (consensus_data : list Consensus.t) (self : Bridge) :
  (forall thr_v thr,
     config_get (venue_config self) "trading" "execution_threshold" (PFloat 0.7) = Ok thr_v ->
     py_num thr_v <> Ok thr) ->
  process_prediction_signals get_current_exposure now consensus_data self = (Ok [], self).
Proof.
  intros Hbad.
  destruct (process_signals_spec get_current_exposure now consensus_data self)
    as (sigs & Hp & Hall).
  rewrite Hp. destruct sigs as [|sig sigs]; [reflexivity|]. exfalso.
  destruct (Hall sig (or_introl eq_refl)) as [_ [self1 Hval]].
  destruct (validate_consensus_true _ _ _ Hval) as (thr_v & thr & conf & H1 & H2 & _).
  exact (Hbad thr_v thr H1 H2).
Qed.

End ProcessMore.

(** A venue configuration whose threshold is the text "0.7". *)
Definition text_threshold_bridge : Bridge :=
  init (PDict (<["trading" := PDict (<["execution_threshold" := PStr "0.7"]> ∅)]> ∅))
       get_default_trading_config.

Lemma bad_threshold_drops_everything_witness :
  process_prediction_signals get_current_exposure_mock 0 [btc_consensus; eth_consensus]
    text_threshold_bridge = (Ok [], text_threshold_bridge).
Proof.
  apply (bad_threshold_drops_everything get_current_exposure_mock 0
           [btc_consensus; eth_consensus] text_threshold_bridge).
  intros thr_v thr H. injection H as <-. discriminate.
Defined.


Section Ledger.

Variable execute_trade : TradeParams -> result pyval.
Variable now : Z.

Definition is_filled (signal : Signal.t) : bool :=
  match outcome execute_trade signal with
  | Filled => true
  | _ => false
  end.

(** The volume that the engine reports for a signal it fills. *)
Definition filled_volume (signal : Signal.t) : Q :=
  match execute_trade (params_of signal) with
  | Ok (PDict d) => default 0%Q (as_num (default (PInt 0) (d !! "volume")))
  | _ => 0%Q
  end.

Fixpoint sum_volumes (signals : list Signal.t) : Q :=
  match signals with
  | [] => 0
  | s :: rest => (if is_filled s then filled_volume s else 0) + sum_volumes rest
  end.

(** A record as [track_prediction_trade] appends it. *)
Definition fresh_record (signal : Signal.t) (r : TradeRecord) : Prop :=
  rec_id r = Signal.id signal /\
  rec_prediction_data r = Signal.prediction_data signal /\
  success (execution_data r) = true /\
  opened_at r = now /\ status r = open /\ pnl r = 0%Q.

Lemma execute_one_ledger (signal : Signal.t) (fr : Frame) :
  exists fr' new,
    execute_one execute_trade now signal fr = (Ok tt, fr') /\
    prediction_trades (self_ fr') = prediction_trades (self_ fr) ++ new /\
    Forall2 fresh_record (if is_filled signal then [signal] else []) new /\
    (total_volume (execution_results fr') ==
       total_volume (execution_results fr) +
       (if is_filled signal then filled_volume signal else 0))%Q.
Proof.
  unfold execute_one, execute_single_trade, call_engine, track_prediction_trade,
    on_self, update_results, is_filled, outcome, filled_volume.
  run_monad. fold (params_of signal). simpl.
  destruct (execute_trade (params_of signal)) as [v|e]; simpl.
  2:{ eexists. exists []. split; [reflexivity|]. simpl. rewrite app_nil_r.
      repeat split; [constructor|ring]. }
  destruct v; simpl;
    try (eexists; exists []; split; [reflexivity|]; simpl; rewrite app_nil_r;
         repeat split; [constructor|ring]).
  unfold py_num.
  destruct (as_num (default (PInt 0) (d !! "volume"))) as [q|]; simpl.
  - eexists. eexists. split; [reflexivity|]. simpl. split; [reflexivity|]. split.
    + constructor; [|constructor]. repeat split.
    + reflexivity.
  - eexists. exists []. split; [reflexivity|]. simpl. rewrite app_nil_r.
    repeat split; [constructor|ring].
Qed.

Lemma execute_loop_ledger (signals : list Signal.t) (fr : Frame) :
  exists fr' new,
    execute_loop execute_trade now signals fr = (Ok tt, fr') /\
    prediction_trades (self_ fr') = prediction_trades (self_ fr) ++ new /\
    Forall2 fresh_record (List.filter is_filled signals) new /\
    (total_volume (execution_results fr') ==
       total_volume (execution_results fr) + sum_volumes signals)%Q.
Proof.
  revert fr. induction signals as [|s signals IH]; intros fr.
  - exists fr, []. simpl. rewrite app_nil_r. repeat split; [constructor|ring].
  - destruct (execute_one_ledger s fr) as (fr1 & new1 & H1 & Hp1 & Hf1 & Hv1).
    destruct (IH fr1) as (fr2 & new2 & H2 & Hp2 & Hf2 & Hv2).
    exists fr2, (new1 ++ new2). simpl. run_monad. rewrite H1, H2.
    split; [reflexivity|]. split; [now rewrite Hp2, Hp1, app_assoc|]. split.
    + destruct (is_filled s); simpl.
      * inversion Hf1 as [|? ? ? ? Hr Hnil]; subst. inversion Hnil; subst. simpl.
        now constructor.
      * inversion Hf1; subst. exact Hf2.
    + rewrite Hv2, Hv1. ring.
Qed.


Abbreviation run_batch := (execute_prediction_trades execute_trade now).

(** The whole of [execute_prediction_trades], loop and metrics update. *)
Lemma batch_spec (signals : list Signal.t) (self : Bridge) :
  exists report self' new,
    run_batch signals self = (Ok report, self') /\
    submitted self' = submitted self ++ map params_of signals /\
    venue_config self' = venue_config self /\
    trading_config self' = trading_config self /\
    prediction_trades self' = prediction_trades self ++ new /\
    Forall2 fresh_record (List.filter is_filled signals) new /\
    (total_volume report == sum_volumes signals)%Q /\
    successful report =
      (count execute_trade Filled signals + count execute_trade CountedTwice signals)%Z /\
    failed report =
      (count execute_trade Rejected signals + count execute_trade CountedTwice signals)%Z /\
    Z.of_nat (length (trades report)) = count execute_trade Filled signals /\
    Z.of_nat (length new) = count execute_trade Filled signals /\
    performance_metrics self' =
      (let pm := performance_metrics self in
       let total := (total_signals pm + Z.of_nat (length (trades report)))%Z in
       let executed := (executed_trades pm + successful report)%Z in
       {| total_signals := total;
          executed_trades := executed;
          profitable_trades := profitable_trades pm;
          total_pnl := total_pnl pm;
          accuracy_rate :=
            if (0 <? total)%Z then (inject_Z executed / inject_Z total)%Q
            else accuracy_rate pm;
          avg_hold_time := avg_hold_time pm |}).
Proof.
  unfold execute_prediction_trades.
  set (fr0 := {| self_ := self;
                 execution_results :=
                   {| successful := 0; failed := 0; total_volume := 0; trades := [] |} |}).
  destruct (execute_loop_counts execute_trade now signals fr0)
    as (fr & Hloop & Hsub & Hpm & Hvc & Htc & Hok & Hfail & Htr & Hpt).
  destruct (execute_loop_ledger signals fr0) as (fr' & new & Hloop' & Hpts & Hfresh & Hvol).
  rewrite Hloop in Hloop'. injection Hloop' as <-.
  rewrite Hloop. unfold update_performance_metrics. run_monad. simpl.
  eexists. eexists. exists new. split; [reflexivity|]. simpl in *.
  rewrite Hpm.
  assert (Hlen : Z.of_nat (length new) = count execute_trade Filled signals).
  { rewrite Hpts, length_app in Hpt. lia. }
  repeat split; try assumption; try lia.
  rewrite Hvol. ring.
Qed.

Lemma filled_count (signals : list Signal.t) :
  Z.of_nat (length (List.filter is_filled signals)) = count execute_trade Filled signals.
Proof.
  unfold count, is_filled. induction signals as [|s l IH]; [reflexivity|].
  simpl. destruct (outcome execute_trade s); simpl; lia.
Qed.

(** X9. [execute_prediction_trades] never raises; it passes every signal
    of the batch to the engine, once and in order, whatever the engine
    answers for the others, and writes neither configuration. *)
Theorem batch_submits_every_signal (signals : list Signal.t) (self : Bridge) :
  exists report self',
    run_batch signals self = (Ok report, self') /\
    submitted self' = submitted self ++ map params_of signals /\
    venue_config self' = venue_config self /\
    trading_config self' = trading_config self.
Proof.
  destruct (batch_spec signals self) as (rep & self' & new & H & Hs & Hv & Ht & _).
  now exists rep, self'.
Qed.

(** X10. [execute_prediction_trades] only appends to the list of trades:
    one record for each signal that the engine fills, in order, with the id
    and the consensus of the signal, status [open] and a profit of 0; the
    report lists as many trades, and its total volume is the sum of the
    volumes that the engine reported for them. *)
Theorem batch_appends_open_records (signals : list Signal.t) (self : Bridge) :
  exists report self' new,
    run_batch signals self = (Ok report, self') /\
    prediction_trades self' = prediction_trades self ++ new /\
    Forall2 fresh_record (List.filter is_filled signals) new /\
    length new = length (trades report) /\
    (total_volume report == sum_volumes signals)%Q.
Proof.
  destruct (batch_spec signals self)
    as (rep & self' & new & H & _ & _ & _ & Hp & Hf & Hvol & _ & _ & Htr & Hn & _).
  exists rep, self', new. repeat split; try assumption. lia.
Qed.

(** X11. When no answer of the engine carries a volume that is not a
    number, the report of a batch satisfies successful + failed = number of
    signals, successful is the number of trades listed, and both
    [total_signals] and [executed_trades] grow by successful. *)
Theorem batch_counts_with_numeric_volumes (signals : list Signal.t) (self : Bridge) :
  Forall (fun s => outcome execute_trade s <> CountedTwice) signals ->
  exists report self',
    run_batch signals self = (Ok report, self') /\
    (successful report + failed report)%Z = Z.of_nat (length signals) /\
    successful report = Z.of_nat (length (trades report)) /\
    successful report = Z.of_nat (length (List.filter is_filled signals)) /\
    total_signals (performance_metrics self') =
      (total_signals (performance_metrics self) + successful report)%Z /\
    executed_trades (performance_metrics self') =
      (executed_trades (performance_metrics self) + successful report)%Z.
Proof.
  intros Hnum.
  assert (Hz : count execute_trade CountedTwice signals = 0%Z).
  { unfold count. induction Hnum as [|s l Hs _ IH]; [reflexivity|].
    simpl. destruct (outcome execute_trade s); try congruence; exact IH. }
  pose proof (filled_count signals) as Hfl.
  destruct (batch_spec signals self)
    as (rep & self' & new & H & _ & _ & _ & _ & _ & _ & Hok & Hfail & Htr & _ & Hpm).
  pose proof (count_total execute_trade signals) as Htot.
  exists rep, self'. rewrite Hpm. simpl. repeat split; try assumption; lia.
Qed.

End Ledger.


Section MonitorProps.

Variable calculate_trade_pnl : TradeRecord -> result Q.
Variable write_metrics : MetricsData -> result unit.
Variable now : Z.

Definition count_profitable (trades : list TradeRecord) : Z :=
  Z.of_nat (length (List.filter (fun t => negb (is_open t)) trades)).

Definition count_open (trades : list TradeRecord) : Z :=
  Z.of_nat (length (List.filter is_open trades)).

Lemma count_open_profitable (trades : list TradeRecord) :
  (count_open trades + count_profitable trades = Z.of_nat (length trades))%Z.
Proof.
  unfold count_open, count_profitable.
  induction trades as [|t l IH]; [reflexivity|].
  simpl. destruct (is_open t); simpl; lia.
Qed.

(** How monitoring may change one trade: a closed trade not at all; an open
    one in its profit and loss, and in its status only towards
    [profitable] and only with a positive profit. *)
Definition monitored (t t' : TradeRecord) : Prop :=
  rec_id t' = rec_id t /\
  rec_prediction_data t' = rec_prediction_data t /\
  execution_data t' = execution_data t /\
  opened_at t' = opened_at t /\
  (is_open t = false -> t' = t) /\
  (is_open t = true -> is_open t' = false -> (0 < pnl t')%Q).

Lemma monitored_same (t : TradeRecord) : monitored t t.
Proof.
  unfold monitored. repeat split. intros H1 H2. congruence.
Qed.

Lemma monitored_all_same (trades : list TradeRecord) : Forall2 monitored trades trades.
Proof.
  induction trades; constructor; [apply monitored_same|assumption].
Qed.

Lemma is_open_update (t : TradeRecord) (p : Q) :
  is_open t = true -> is_open (update_trade t p) = negb (Qlt_bool 0 p).
Proof.
  unfold is_open, update_trade. simpl.
  destruct (status t); [|discriminate]. intros _. now destruct (Qlt_bool 0 p).
Qed.

Lemma monitored_update (t : TradeRecord) (p : Q) :
  is_open t = true -> monitored t (update_trade t p).
Proof.
  intros Hopen. unfold monitored. repeat split.
  - intros Hc. congruence.
  - intros _. rewrite (is_open_update t p Hopen). simpl.
    destruct (Qlt_bool 0 p) eqn:Hp; [|discriminate]. intros _. now apply Qlt_bool_iff.
Qed.

Lemma monitor_loop_spec (trades : list TradeRecord) (n : Z) :
  forall e trades' n',
    monitor_loop calculate_trade_pnl trades n = (e, trades', n') ->
    Forall2 monitored trades trades' /\
    n' = (n + count_profitable trades' - count_profitable trades)%Z /\
    (e = None -> Forall (fun t' => is_open t' = true -> (pnl t' <= 0)%Q) trades').
Proof.
  revert n. induction trades as [|t rest IH]; intros n e trades' n'; simpl.
  - intros [= <- <- <-]. split; [constructor|]. split; [unfold count_profitable; simpl; lia|].
    intros _. constructor.
  - destruct (is_open t) eqn:Hopen.
    + destruct (calculate_trade_pnl t) as [p|ex].
      * destruct (monitor_loop calculate_trade_pnl rest _) as [[e1 rest1] n1] eqn:Hrec.
        intros [= <- <- <-].
        destruct (IH _ _ _ _ Hrec) as (Hall & Hn & Hpnl).
        split; [|split].
        -- constructor; [now apply monitored_update|exact Hall].
        -- unfold count_profitable in *. simpl.
           rewrite (is_open_update t p Hopen), Hopen.
           destruct (Qlt_bool 0 p); simpl negb; cbv iota; simpl length; lia.
        -- intros He. constructor; [|now apply Hpnl].
           rewrite (is_open_update t p Hopen).
           destruct (Qlt_bool 0 p) eqn:Hp; [discriminate|].
           intros _. simpl. now apply Qlt_bool_false.
      * intros [= <- <- <-]. split; [|split].
        -- apply monitored_all_same.
        -- lia.
        -- discriminate.
    + destruct (monitor_loop calculate_trade_pnl rest n) as [[e1 rest1] n1] eqn:Hrec.
      intros [= <- <- <-].
      destruct (IH _ _ _ _ Hrec) as (Hall & Hn & Hpnl).
      split; [|split].
      * constructor; [apply monitored_same|exact Hall].
      * unfold count_profitable in *. simpl. rewrite Hopen. simpl. lia.
      * intros He. constructor; [|now apply Hpnl]. congruence.
Qed.


Lemma monitor_spec (self : Bridge) :
  exists r self',
    monitor_prediction_trades calculate_trade_pnl write_metrics now self = (r, self') /\
    Forall2 monitored (prediction_trades self) (prediction_trades self') /\
    profitable_trades (performance_metrics self') =
      (profitable_trades (performance_metrics self)
       + count_profitable (prediction_trades self')
       - count_profitable (prediction_trades self))%Z /\
    (total_signals (performance_metrics self'), executed_trades (performance_metrics self'),
     total_pnl (performance_metrics self'), accuracy_rate (performance_metrics self'),
     avg_hold_time (performance_metrics self'))
    = (total_signals (performance_metrics self), executed_trades (performance_metrics self),
       total_pnl (performance_metrics self), accuracy_rate (performance_metrics self),
       avg_hold_time (performance_metrics self)) /\
    (venue_config self', trading_config self', submitted self')
    = (venue_config self, trading_config self, submitted self) /\
    (r = Ok tt ->
     Forall (fun t => is_open t = true -> (pnl t <= 0)%Q) (prediction_trades self') /\
     write_metrics (metrics_data now self') = Ok tt).
Proof.
  unfold monitor_prediction_trades.
  destruct (monitor_loop calculate_trade_pnl (prediction_trades self)
              (profitable_trades (performance_metrics self))) as [[e trades'] n'] eqn:Hloop.
  destruct (monitor_loop_spec _ _ _ _ _ Hloop) as (Hall & Hn & Hpnl).
  destruct e as [e|].
  - eexists. eexists. split; [reflexivity|]. simpl.
    repeat split; try assumption. all: discriminate.
  - unfold save_performance_metrics.
    eexists. eexists. split; [reflexivity|]. simpl.
    repeat split; try assumption; auto.
Qed.

(** X13. [monitor_prediction_trades] keeps every trade in its place with
    its id, consensus, execution data and opening time; it never touches a
    closed trade and closes an open one only with a positive profit;
    [profitable_trades] grows by the number of trades it closes. When it
    returns normally, no trade left open has a positive profit and the
    metrics file was written from the state it leaves. *)
Theorem monitoring_only_closes_winners (self : Bridge) :
  exists r self',
    monitor_prediction_trades calculate_trade_pnl write_metrics now self = (r, self') /\
    Forall2 monitored (prediction_trades self) (prediction_trades self') /\
    profitable_trades (performance_metrics self') =
      (profitable_trades (performance_metrics self)
       + count_profitable (prediction_trades self')
       - count_profitable (prediction_trades self))%Z /\
    (r = Ok tt ->
     Forall (fun t => is_open t = true -> (pnl t <= 0)%Q) (prediction_trades self') /\
     write_metrics (metrics_data now self') = Ok tt).
Proof.
  destruct (monitor_spec self) as (r & self' & H & Hall & Hn & _ & _ & Hok).
  now exists r, self'.
Qed.

End MonitorProps.

Section Reachable.

(** One call of a method of the bridge, with whatever the collaborators
    answer during that call. *)
Inductive step (self self' : Bridge) : Prop :=
| step_process (get_current_exposure : string -> result Z) (now : Z)
    (consensus_data : list Consensus.t) (r : result (list Signal.t)) :
    process_prediction_signals get_current_exposure now consensus_data self = (r, self') ->
    step self self'
| step_batch (execute_trade : TradeParams -> result pyval) (now : Z)
    (signals : list Signal.t) (r : result ExecutionResults) :
    execute_prediction_trades execute_trade now signals self = (r, self') ->
    step self self'
| step_monitor (calculate_trade_pnl : TradeRecord -> result Q)
    (write_metrics : MetricsData -> result unit) (now : Z) (r : result unit) :
    monitor_prediction_trades calculate_trade_pnl write_metrics now self = (r, self') ->
    step self self'.

(** The bridges that a sequence of calls can produce from [__init__]. *)
Inductive reachable (venue_cfg trading_cfg : pyval) : Bridge -> Prop :=
| reach_init : reachable venue_cfg trading_cfg (init venue_cfg trading_cfg)
| reach_step self self' :
    reachable venue_cfg trading_cfg self -> step self self' ->
    reachable venue_cfg trading_cfg self'.

Record ledger_ok (venue_cfg trading_cfg : pyval) (self : Bridge) : Prop := {
  ledger_venue_config : venue_config self = venue_cfg;
  ledger_trading_config : trading_config self = trading_cfg;
  ledger_total :
    total_signals (performance_metrics self) = Z.of_nat (length (prediction_trades self));
  ledger_profitable :
    profitable_trades (performance_metrics self) = count_profitable (prediction_trades self);
  ledger_executed :
    (total_signals (performance_metrics self) <= executed_trades (performance_metrics self))%Z;
  ledger_total_pnl : total_pnl (performance_metrics self) = 0%Q;
  ledger_avg_hold_time : avg_hold_time (performance_metrics self) = 0%Q;
  ledger_rate_zero :
    total_signals (performance_metrics self) = 0%Z ->
    accuracy_rate (performance_metrics self) = 0%Q;
  ledger_rate :
    (0 < total_signals (performance_metrics self))%Z ->
    accuracy_rate (performance_metrics self) =
      (inject_Z (executed_trades (performance_metrics self)) /
       inject_Z (total_signals (performance_metrics self)))%Q
}.

Lemma fresh_records_open (execute_trade : TradeParams -> result pyval) (now : Z)
    (signals : list Signal.t) (new : list TradeRecord) :
  Forall2 (fresh_record now) signals new ->
  count_profitable new = 0%Z.
Proof.
  unfold count_profitable. induction 1 as [|s r l l' Hr _ IH]; [reflexivity|].
  destruct Hr as (_ & _ & _ & _ & Hst & _). simpl. unfold is_open at 1. now rewrite Hst.
Qed.

Lemma count_profitable_app (l1 l2 : list TradeRecord) :
  count_profitable (l1 ++ l2) = (count_profitable l1 + count_profitable l2)%Z.
Proof.
  unfold count_profitable. rewrite List.filter_app, length_app. lia.
Qed.

Lemma ledger_step (venue_cfg trading_cfg : pyval) (self self' : Bridge) :
  ledger_ok venue_cfg trading_cfg self -> step self self' ->
  ledger_ok venue_cfg trading_cfg self'.
Proof.
  intros [Hv Ht Htot Hprof Hexe Hpnl Havg Hz Hr] Hstep.
  destruct Hstep as [gce now cs r H | engine now signals r H | pnlf wr now r H].
  - destruct (process_signals_spec gce now cs self) as (sigs & Hp & _).
    rewrite Hp in H. injection H as _ <-. now constructor.
  - destruct (batch_spec engine now signals self)
      as (rep & self1 & new & Hb & _ & Hv1 & Ht1 & Hpt & Hfresh & _ & Hok & _ & Htr & Hnew & Hpm).
    rewrite Hb in H. injection H as _ <-.
    assert (Hc : (0 <= count engine CountedTwice signals)%Z) by (unfold count; lia).
    constructor; rewrite ?Hpm; simpl.
    + congruence.
    + congruence.
    + rewrite Hpt, length_app. lia.
    + rewrite Hpt, count_profitable_app, (fresh_records_open engine now _ _ Hfresh). lia.
    + lia.
    + exact Hpnl.
    + exact Havg.
    + intros H0. assert (Hlt : (0 <? total_signals (performance_metrics self)
                                      + Z.of_nat (length (trades rep)))%Z = false)
        by (apply Z.ltb_ge; lia).
      rewrite Hlt. apply Hz. lia.
    + intros Hpos. apply Z.ltb_lt in Hpos. now rewrite Hpos.
  - destruct (monitor_spec pnlf wr now self)
      as (r1 & self1 & Hm & Hall & Hn & Hsame & Hcfg & _).
    rewrite Hm in H. injection H as _ <-.
    injection Hsame as E1 E2 E3 E4 E5. injection Hcfg as C1 C2 C3.
    constructor; rewrite ?E1, ?E2, ?E3, ?E4, ?E5; try congruence.
    + rewrite <- (Forall2_length _ _ _ Hall). exact Htot.
    + rewrite Hn, Hprof. lia.
    + exact Hz.
    + exact Hr.
Qed.

(** X14. Whatever sequence of signal processing, batch execution and
    monitoring a bridge has gone through since [__init__], with whatever
    answers of its collaborators: the configurations are the initial ones,
    [total_signals] is the number of recorded trades, [profitable_trades]
    the number of closed ones, [total_signals <= executed_trades],
    [total_pnl] and [avg_hold_time] are still 0, [accuracy_rate] is 0 while
    [total_signals] is 0 and executed_trades / total_signals afterwards,
    hence at least 1; open trades + profitable_trades = total_signals. *)
Theorem ledger_invariant (venue_cfg trading_cfg : pyval) (self : Bridge) :
  reachable venue_cfg trading_cfg self ->
  ledger_ok venue_cfg trading_cfg self /\
  (count_open (prediction_trades self) + profitable_trades (performance_metrics self)
   = total_signals (performance_metrics self))%Z /\
  ((0 < total_signals (performance_metrics self))%Z ->
   (1 <= accuracy_rate (performance_metrics self))%Q).
Proof.
  intros Hreach.
  assert (Hok : ledger_ok venue_cfg trading_cfg self).
  { induction Hreach as [|self self' _ IH Hstep].
    - constructor; reflexivity.
    - now apply (ledger_step venue_cfg trading_cfg self self'). }
  split; [exact Hok|]. destruct Hok as [_ _ Htot Hprof Hexe _ _ _ Hr]. split.
  - rewrite Hprof, Htot. apply count_open_profitable.
  - intros Hpos. rewrite (Hr Hpos). apply Qle_shift_div_l.
    + replace 0%Q with (inject_Z 0) by reflexivity. now rewrite <- Zlt_Qlt.
    + rewrite Qmult_1_l. now rewrite <- Zle_Qle.
Qed.

End Reachable.

Section MockEngine.

Variable engine_now : Z.
Variable now : Z.


Lemma mock_outcome (signal : Signal.t) :
  outcome (mock_execute_trade engine_now) signal = Filled /\
  filled_volume (mock_execute_trade engine_now) signal = (Signal.size signal * 1000)%Q.
Proof.
  unfold outcome, filled_volume, mock_execute_trade. split; reflexivity.
Qed.

Fixpoint sum_sizes (signals : list Signal.t) : Q :=
  match signals with
  | [] => 0
  | s :: rest => Signal.size s + sum_sizes rest
  end.

(** X12. With [MockTradingEngine] every signal of a batch is filled: the
    report has successful = number of signals, failed = 0, one trade per
    signal and a total volume of 1000 times the sum of the sizes; the list
    of trades of the bridge grows by the number of signals. *)
Theorem mock_engine_fills_every_signal (signals : list Signal.t) (self : Bridge) :
  exists report self',
    execute_prediction_trades (mock_execute_trade engine_now) now signals self
      = (Ok report, self') /\
    successful report = Z.of_nat (length signals) /\
    failed report = 0%Z /\
    length (trades report) = length signals /\
    (total_volume report == 1000 * sum_sizes signals)%Q /\
    length (prediction_trades self') = (length (prediction_trades self) + length signals)%nat.
Proof.
  assert (Hc : count (mock_execute_trade engine_now) Filled signals = Z.of_nat (length signals)
               /\ count (mock_execute_trade engine_now) Rejected signals = 0%Z
               /\ count (mock_execute_trade engine_now) CountedTwice signals = 0%Z).
  { induction signals as [|s l IH]; [repeat split|].
    rewrite !count_cons. destruct (mock_outcome s) as [-> _].
    destruct IH as (-> & -> & ->). simpl length. repeat split; lia. }
  assert (Hs : (sum_volumes (mock_execute_trade engine_now) signals == 1000 * sum_sizes signals)%Q).
  { clear. induction signals as [|s l IH]; simpl; [ring|].
    unfold is_filled. destruct (mock_outcome s) as [-> ->]. rewrite IH. ring. }
  destruct Hc as (Hf & Hr & Hd).
  destruct (batch_spec (mock_execute_trade engine_now) now signals self)
    as (rep & self' & new & H & _ & _ & _ & Hpt & _ & Hvol & Hok & Hfail & Htr & Hnew & _).
  exists rep, self'. split; [exact H|].
  rewrite Hpt, length_app, Hvol, Hs. repeat split; try lia.
Qed.

End MockEngine.

(** ** The properties at concrete inputs *)

Lemma weak_consensus_gets_floor_witness :
  exists size,
    calculate_position_size 0.1 0.8 default_bridge = (Ok size, default_bridge) /\
    ((size == 0.25 * 0.025)%Q <-> (Qabs 0.1 * 0.8 <= 0.25)%Q).
Proof.
  apply (weak_consensus_gets_floor default_bridge 0.025 0.1 0.8 default_cap).
  reflexivity.
Defined.

Lemma created_signal_passed_risk_witness :
  exists sig,
    create_trading_signal get_current_exposure_mock 0 eth_consensus default_bridge
      = (Ok (Some sig), default_bridge) /\
    exists cur mev me mpv mp,
      get_current_exposure_mock (Signal.trading_pair sig) = Ok cur /\
      config_get (trading_config default_bridge) "portfolio" "max_positions" (PInt 5) = Ok mev /\
      py_num mev = Ok me /\
      (inject_Z cur < me)%Q /\
      config_get (trading_config default_bridge) "risk_management" "max_position_size"
        (PFloat 0.02) = Ok mpv /\
      py_num mpv = Ok mp /\
      (Signal.size sig <= mp)%Q /\
      config_get (trading_config default_bridge) "risk_management" "stop_loss" (PFloat 0.015)
        = Ok (Signal.stop_loss sig) /\
      config_get (trading_config default_bridge) "risk_management" "take_profit" (PFloat 0.03)
        = Ok (Signal.take_profit sig).
Proof.
  eexists. split.
  - vm_compute. reflexivity.
  - eapply (created_signal_passed_risk get_current_exposure_mock 0 eth_consensus
              default_bridge default_bridge).
    vm_compute. reflexivity.
Defined.

(** A consensus of five agents that is sure of no move at all. *)
Definition flat_consensus : Consensus.t :=
  {| Consensus.asset := Some "BTC";
     Consensus.signal_strength := Some 0%Q;
     Consensus.confidence := Some 0.9%Q;
     Consensus.agent_count := Some 5%Z;
     Consensus.prediction_data := Some (PDict ∅) |}.

Lemma zero_strength_is_short_witness :
  exists sig,
    create_trading_signal get_current_exposure_mock 0 flat_consensus default_bridge
      = (Ok (Some sig), default_bridge) /\
    Signal.direction sig = short /\
    (Signal.signal_strength sig == 0)%Q /\
    (Signal.size sig == 0.25 * 0.025)%Q.
Proof.
  eexists. split.
  - vm_compute. reflexivity.
  - eapply (zero_strength_is_short get_current_exposure_mock 0 flat_consensus
              default_bridge default_bridge _ 0 0.025).
    + vm_compute. reflexivity.
    + reflexivity.
    + reflexivity.
    + exact default_cap.
    + discriminate.
Defined.

(** A consensus of five agents that is strong and sure: 0.95 × 0.9. *)
Definition strong_consensus : Consensus.t :=
  {| Consensus.asset := Some "BTC";
     Consensus.signal_strength := Some 0.95%Q;
     Consensus.confidence := Some 0.9%Q;
     Consensus.agent_count := Some 5%Z;
     Consensus.prediction_data := Some (PDict ∅) |}.

Lemma default_limits_drop_strong_consensus_witness :
  create_trading_signal get_current_exposure_mock 0 strong_consensus default_bridge
    = (Ok None, default_bridge) /\
  exists sig,
    create_trading_signal get_current_exposure_mock 0 btc_consensus default_bridge
      = (Ok (Some sig), default_bridge).
Proof.
  split.
  - apply (default_limits_drop_strong_consensus get_current_exposure_mock 0 strong_consensus
             "BTC" "BTC-USDT" 0.95 0.9 5 eq_refl eq_refl eq_refl eq_refl eq_refl).
    discriminate.
  - apply (proj2 (default_limits_drop_strong_consensus get_current_exposure_mock 0
                    btc_consensus "BTC" "BTC-USDT" 0.75 0.82 5
                    eq_refl eq_refl eq_refl eq_refl eq_refl)
             ltac:(discriminate) 0%Z eq_refl).
    reflexivity.
Defined.

Lemma map_asset_to_pair_spec_witness :
  (forall pair,
     map_asset_to_pair "Sol" = Some pair <->
     In (upper "Sol") ["BTC"; "ETH"; "SOL"; "ARB"; "AVAX"]%string /\
     pair = (upper "Sol" +:+ "-USDT")%string) /\
  map_asset_to_pair (upper "Sol") = map_asset_to_pair "Sol".
Proof.
  apply (map_asset_to_pair_spec "Sol"). reflexivity.
Defined.

Lemma batch_counts_with_numeric_volumes_witness :
  exists report self',
    execute_prediction_trades selective_engine 0 [btc_signal; eth_signal] default_bridge
      = (Ok report, self') /\
    (successful report + failed report)%Z = Z.of_nat (length [btc_signal; eth_signal]) /\
    successful report = Z.of_nat (length (trades report)) /\
    successful report =
      Z.of_nat (length (List.filter (is_filled selective_engine) [btc_signal; eth_signal])) /\
    total_signals (performance_metrics self') =
      (total_signals (performance_metrics default_bridge) + successful report)%Z /\
    executed_trades (performance_metrics self') =
      (executed_trades (performance_metrics default_bridge) + successful report)%Z.
Proof.
  apply (batch_counts_with_numeric_volumes selective_engine 0 [btc_signal; eth_signal]
           default_bridge).
  repeat constructor; vm_compute; discriminate.
Defined.

(** The bridge after one batch of two signals of which the engine fills
    one. *)
Definition after_one_batch : Bridge :=
  snd (execute_prediction_trades selective_engine 0 [btc_signal; eth_signal] default_bridge).

Lemma ledger_invariant_witness :
  ledger_ok (PDict ∅) get_default_trading_config after_one_batch /\
  (count_open (prediction_trades after_one_batch)
   + profitable_trades (performance_metrics after_one_batch)
   = total_signals (performance_metrics after_one_batch))%Z /\
  ((0 < total_signals (performance_metrics after_one_batch))%Z ->
   (1 <= accuracy_rate (performance_metrics after_one_batch))%Q).
Proof.
  apply (ledger_invariant (PDict ∅) get_default_trading_config after_one_batch).
  apply (reach_step _ _ default_bridge after_one_batch).
  - apply reach_init.
  - apply (step_batch _ _ selective_engine 0 [btc_signal; eth_signal]
             (fst (execute_prediction_trades selective_engine 0 [btc_signal; eth_signal]
                     default_bridge))).
    apply surjective_pairing.
Defined.

End BridgeExtras.

(** * More properties of the venue manager *)

Module VenueExtras.
Import VenueManager VenueProps Markets.

Ltac run_monad :=
  unfold mbind, M_bind, try_except, liftR, modify_state, get_state, mret, M_ret in *.


Section VenueExecution.

Variable execute_signal : TradingSignal -> result bool.

(** [true] when [execute_signal] answers [True] for the signal. *)
Definition executes (signal : TradingSignal) : bool :=
  match execute_signal signal with
  | Ok true => true
  | _ => false
  end.

(** X15. The loop of the venue's [execute_trades] never raises and leaves
    the venue as it was; [executed_count] is the number of signals for
    which [execute_signal] answered [True], a raising signal counting for
    nothing. *)
Theorem venue_execute_trades_counts (signals : list TradingSignal) (n : Z) (p : Process) :
  execute_trades_loop execute_signal signals n p =
    (Ok (n + Z.of_nat (length (List.filter executes signals)))%Z, p).
Proof.
  revert n. induction signals as [|s l IH]; intros n; simpl.
  - run_monad. do 2 f_equal. lia.
  - run_monad. unfold executes at 1.
    destruct (execute_signal s) as [[|]|e]; simpl; rewrite IH; do 2 f_equal; simpl length; lia.
Qed.

End VenueExecution.

Section AggregationMore.

Variable get_agent_prediction : string -> string -> option AgentPrediction.
Variable get_agent_reputation_weight : string -> Q.
Variable now : Z.

Abbreviation calculate' := (calculate_crypto_consensus get_agent_prediction get_agent_reputation_weight now).
Abbreviation aggregate' := (aggregate_consensus get_agent_prediction get_agent_reputation_weight now).
Abbreviation retrieved' := (retrieved get_agent_prediction get_agent_reputation_weight).

Lemma contributing_length (mid : string) (ps : list string) :
  (length (contributing get_agent_prediction get_agent_reputation_weight mid ps) <= length ps)%nat.
Proof.
  induction ps as [|a ps IH]; simpl; [lia|].
  destruct (get_agent_prediction a mid); simpl; lia.
Qed.

Lemma calculate_some_inv (market : Market) (mc : MarketConsensus) :
  calculate' market = Ok (Some mc) ->
  prediction_data mc = market /\
  market_asset market = Some (asset mc) /\
  timestamp mc = now /\
  agent_count mc = Z.of_nat (length (default [] (participants market))) /\
  (2 <= agent_count mc)%Z /\
  (1 <= length (retrieved' market))%nat /\
  (Z.of_nat (length (retrieved' market)) <= agent_count mc)%Z.
Proof.
  intros H.
  assert (Hnz : ~ (sum_weights (retrieved' market) == 0)%Q).
  { intros Hz. rewrite (zero_weight_no_consensus _ _ now market Hz) in H. discriminate. }
  unfold calculate_crypto_consensus in H.
  destruct (length (default [] (participants market)) <? 2)%nat eqn:Hlen; [discriminate|].
  apply Nat.ltb_ge in Hlen.
  destruct (Qeq_bool _ 0); [discriminate|].
  destruct (market_asset market) as [a|]; [|discriminate].
  injection H as <-. simpl. repeat split; try lia.
  - destruct (retrieved' market) eqn:Hr; [|simpl; lia].
    exfalso. apply Hnz. reflexivity.
  - pose proof (contributing_length (market_id market) (default [] (participants market))).
    unfold retrieved. lia.
Qed.

(** X16. A consensus that [calculate_crypto_consensus] returns reports as
    [agent_count] the number of participants of the market, which is at
    least 2, and not the number of predictions retrieved, which is between
    1 and that number; it carries the market itself and its asset. *)
Theorem consensus_counts_participants (market : Market) (mc : MarketConsensus) :
  calculate' market = Ok (Some mc) ->
  agent_count mc = Z.of_nat (length (default [] (participants market))) /\
  (2 <= agent_count mc)%Z /\
  (1 <= length (retrieved' market))%nat /\
  (Z.of_nat (length (retrieved' market)) <= agent_count mc)%Z /\
  prediction_data mc = market /\
  market_asset market = Some (asset mc).
Proof.
  intros H. destruct (calculate_some_inv market mc H) as (H1 & H2 & _ & H4 & H5 & H6 & H7).
  repeat split; assumption.
Qed.

(** X17. The markets behind the consensus list of [aggregate_consensus]
    are a subsequence of the active markets, all of type "crypto_price",
    and each consensus is the one computed for its market. *)
Theorem aggregate_keeps_order (markets : list (string * Market))
    (consensus_data : list MarketConsensus) :
  aggregate' markets = Ok consensus_data ->
  sublist (map prediction_data consensus_data) (map snd markets) /\
  Forall (fun mc => market_type (prediction_data mc) = "crypto_price"%string /\
                    calculate' (prediction_data mc) = Ok (Some mc)) consensus_data.
Proof.
  revert consensus_data. induction markets as [|[k m] markets IH]; simpl; intros cd H.
  - injection H as <-. split; constructor.
  - destruct (String.eqb (market_type m) "crypto_price") eqn:Hty.
    + apply String.eqb_eq in Hty.
      destruct (calculate' m) as [[c|]|e] eqn:Hc; simpl in H; try discriminate.
      * destruct (aggregate' markets) as [cd'|e]; simpl in H; [|discriminate].
        injection H as <-. destruct (IH cd' eq_refl) as [Hsub Hall].
        destruct (calculate_some_inv m c Hc) as (Hpd & _).
        split.
        -- simpl. rewrite Hpd. now constructor.
        -- constructor; [|exact Hall]. rewrite Hpd. now split.
      * destruct (aggregate' markets) as [cd'|e]; simpl in H; [|discriminate].
        injection H as <-. destruct (IH cd' eq_refl) as [Hsub Hall].
        split; [now constructor|exact Hall].
    + destruct (IH cd H) as [Hsub Hall]. split; [now constructor|exact Hall].
Qed.

End AggregationMore.

Section VenueSizing.

Variable now : Z.

Lemma trading_section_size (config : pyval) (thr max_size : Q) (c : MarketConsensus) :
  trading_section config thr max_size ->
  calculate_position_size config c =
    Ok (py_min (max_size * confidence c * Qabs (signal_strength c)) max_size).
Proof.
  intros (trading & thr_v & max_v & Ht & _ & _ & Hmax & Hmaxn).
  unfold calculate_position_size. rewrite Ht. simpl. rewrite Hmax. simpl. now rewrite Hmaxn.
Qed.

(** X18. For a cap >= 0, a confidence in [0,1] and a signal strength in
    [-1,1], the venue's [calculate_position_size] returns
    max_size × confidence × |signal_strength| itself, between 0 and the
    cap: the [min] with the cap changes nothing. *)
Theorem venue_cap_never_binds (config : pyval) (thr max_size : Q) (c : MarketConsensus) :
  trading_section config thr max_size ->
  (0 <= max_size)%Q ->
  (0 <= confidence c <= 1)%Q ->
  (-1 <= signal_strength c <= 1)%Q ->
  calculate_position_size config c = Ok (max_size * confidence c * Qabs (signal_strength c))%Q /\
  (0 <= max_size * confidence c * Qabs (signal_strength c) <= max_size)%Q.
Proof.
  intros Hcfg Hmax [Hc0 Hc1] [Hs0 Hs1].
  assert (Ha : (0 <= Qabs (signal_strength c) <= 1)%Q).
  { split; [apply Qabs_nonneg|]. apply Qabs_Qle_condition. now split. }
  destruct Ha as [Ha0 Ha1].
  assert (Hcs : (0 <= confidence c * Qabs (signal_strength c) <= 1)%Q).
  { split; [now apply Qmult_le_0_compat|].
    apply Qle_trans with (1 * Qabs (signal_strength c))%Q.
    - now apply Qmult_le_compat_r.
    - now rewrite Qmult_1_l. }
  destruct Hcs as [Hcs0 Hcs1].
  assert (Hb : (0 <= max_size * confidence c * Qabs (signal_strength c) <= max_size)%Q).
  { rewrite <- Qmult_assoc. split; [now apply Qmult_le_0_compat|].
    rewrite <- (Qmult_1_r max_size) at 2.
    rewrite (Qmult_comm max_size), (Qmult_comm max_size 1).
    now apply Qmult_le_compat_r. }
  split; [|exact Hb].
  rewrite (trading_section_size config thr max_size c Hcfg). f_equal.
  unfold py_min.
  destruct (Qlt_bool max_size _) eqn:E; [|reflexivity].
  apply BridgeProps.Qlt_bool_iff in E. exfalso.
  exact (Qlt_not_le _ _ E (proj2 Hb)).
Qed.

(** X19. In the venue a consensus of signal strength zero that clears the
    threshold gives a [short] signal of size 0. *)
Theorem venue_zero_strength_is_short_of_size_zero (config : pyval) (thr max_size : Q)
    (c : MarketConsensus) :
  trading_section config thr max_size ->
  (0 <= max_size)%Q ->
  (thr <= confidence c)%Q ->
  (signal_strength c == 0)%Q ->
  exists sig,
    generate_signals now config [c] = Ok [sig] /\
    ts_direction sig = short /\
    (ts_size sig == 0)%Q.
Proof.
  intros Hcfg Hmax Hthr Hz.
  rewrite (generate_signals_filter now config thr max_size [c] Hcfg). simpl.
  unfold clears. apply Qle_bool_iff in Hthr. rewrite Hthr. simpl.
  eexists. split; [reflexivity|]. unfold signal_of. simpl. split.
  - assert (E : Qlt_bool 0 (signal_strength c) = false).
    { apply BridgeProps.Qlt_bool_false. rewrite Hz. apply Qle_refl. }
    now rewrite E.
  - assert (Hx : (max_size * confidence c * Qabs (signal_strength c) == 0)%Q).
    { rewrite Hz. change (Qabs 0) with 0%Q. ring. }
    unfold py_min. destruct (Qlt_bool max_size _) eqn:E; [|exact Hx].
    apply BridgeProps.Qlt_bool_iff in E. rewrite Hx in E. exfalso.
    exact (Qlt_not_le _ _ E Hmax).
Qed.

End VenueSizing.

Section CreationProps.

Variable time : Z.
Variable now : Z.

Lemma pick_crypto :
  In (pick time crypto_assets) crypto_assets.
Proof.
  unfold pick. apply nth_In. simpl length.
  pose proof (Z.mod_pos_bound time 5 ltac:(lia)). simpl Z.of_nat. lia.
Qed.

(** X20. Whatever the time, [create_crypto_market] picks an asset for
    which the bridge's [map_asset_to_pair] has a trading pair; the target
    price is 1.15 times the current price, which is positive. *)
Theorem crypto_market_is_tradable :
  exists a price,
    market_asset (market (create_crypto_market time now)) = Some a /\
    In a crypto_assets /\
    TradingIntegration.map_asset_to_pair a = Some (a +:+ "-USDT")%string /\
    current_price (create_crypto_market time now) = Some price /\
    target_price (create_crypto_market time now) = Some (price * 1.15)%Q /\
    (0 < price < price * 1.15)%Q.
Proof.
  exists (pick time crypto_assets), (get_current_price (pick time crypto_assets)).
  pose proof pick_crypto as Hin.
  split; [reflexivity|]. split; [exact Hin|].
  unfold create_crypto_market, days. simpl.
  destruct Hin as [<-|[<-|[<-|[<-|[<-|[]]]]]];
    (split; [reflexivity|]); (split; [reflexivity|]); (split; [reflexivity|]);
    split; reflexivity.
Qed.

End CreationProps.

Section CreationLoop.

Variable time : Z.
Variable now : Z.

(** No market of the dictionary has a participant. *)
Definition unstaffed (d : list (string * Market)) : Prop :=
  Forall (fun km => participants (snd km) = Some []) d.

Lemma new_market_unstaffed (market_type : pyval) (previous : option NewMarket) (m : NewMarket) :
  (forall p, previous = Some p -> participants (market p) = Some []) ->
  create_for time now market_type previous = Some m ->
  participants (market m) = Some [].
Proof.
  intros Hprev. unfold create_for.
  destruct market_type; try (intros H; now apply Hprev).
  destruct (String.eqb s "crypto_price"); [now intros [= <-]|].
  destruct (String.eqb s "ai_performance"); [now intros [= <-]|].
  destruct (String.eqb s "tech_trends"); [now intros [= <-]|].
  intros H. now apply Hprev.
Qed.

Lemma dict_set_unstaffed (k : string) (m : Market) (d : list (string * Market)) :
  participants m = Some [] -> unstaffed d -> unstaffed (dict_set k m d).
Proof.
  intros Hm. unfold unstaffed. induction 1 as [|[k' m'] d Hk Hd IH]; simpl.
  - now repeat constructor.
  - destruct (String.eqb k' k); constructor; simpl; assumption.
Qed.

Lemma create_one_unstaffed (market_type : pyval) (previous : option NewMarket) (v : Venue) :
  (forall p, previous = Some p -> participants (market p) = Some []) ->
  unstaffed (active_markets v) ->
  unstaffed (active_markets (fst (create_one time now market_type previous v))) /\
  (forall p, snd (create_one time now market_type previous v) = Some p ->
             participants (market p) = Some []).
Proof.
  intros Hprev Hv. unfold create_one.
  destruct (create_for time now market_type previous) as [m|] eqn:Hm.
  - pose proof (new_market_unstaffed _ _ _ Hprev Hm) as Hp.
    destruct (py_incr (venue_stats v) "total_markets_created"); simpl;
      (split; [now apply dict_set_unstaffed|now intros p [= <-]]).
  - simpl. split; [exact Hv|discriminate].
Qed.

Lemma loop_unstaffed (market_types : list pyval) (previous : option NewMarket) (v : Venue) :
  (forall p, previous = Some p -> participants (market p) = Some []) ->
  unstaffed (active_markets v) ->
  unstaffed (active_markets (create_new_markets_loop time now market_types previous v)).
Proof.
  revert previous v. induction market_types as [|ty l IH]; intros previous v Hprev Hv; simpl.
  - exact Hv.
  - destruct (create_one_unstaffed ty previous v Hprev Hv) as [H1 H2].
    destruct (create_one time now ty previous v) as [v' bound]. now apply IH.
Qed.

Section Staffing.

Variable get_agent_prediction : string -> string -> option AgentPrediction.
Variable get_agent_reputation_weight : string -> Q.

Lemma unstaffed_no_consensus (now' : Z) (d : list (string * Market)) :
  unstaffed d ->
  aggregate_consensus get_agent_prediction get_agent_reputation_weight now' d = Ok [].
Proof.
  induction 1 as [|[k m] d Hm _ IH]; simpl; [reflexivity|].
  destruct (String.eqb _ _); [|exact IH].
  rewrite (few_participants_no_consensus _ _ now' m), IH; [reflexivity|].
  simpl in Hm. rewrite Hm. simpl. lia.
Qed.

(** X21. Market creation adds markets without participants only: on a
    venue where no market has a participant, after the loop of
    [create_new_markets] over any list of types still none has, and
    [aggregate_consensus] returns the empty list for any prediction
    source. *)
Theorem created_markets_yield_no_consensus (market_types : list pyval) (v : Venue) (now' : Z) :
  unstaffed (active_markets v) ->
  unstaffed (active_markets (create_new_markets_loop time now market_types None v)) /\
  aggregate_consensus get_agent_prediction get_agent_reputation_weight now'
    (active_markets (create_new_markets_loop time now market_types None v)) = Ok [].
Proof.
  intros Hv.
  assert (H : unstaffed (active_markets (create_new_markets_loop time now market_types None v)))
    by (apply loop_unstaffed; [discriminate|exact Hv]).
  split; [exact H|]. now apply unstaffed_no_consensus.
Qed.

End Staffing.

(** A type for which [create_new_markets] has a creator. *)
Definition known (market_type : pyval) : bool :=
  match market_type with
  | PStr ty =>
      String.eqb ty "crypto_price" || String.eqb ty "ai_performance"
      || String.eqb ty "tech_trends"
  | _ => false
  end.

(** The turns of the loop that find [market] bound: all of them from the
    first known type on. *)
Fixpoint registrations (market_types : list pyval) (bound : bool) : Z :=
  match market_types with
  | [] => 0
  | ty :: rest =>
      if bound || known ty then (1 + registrations rest true)%Z
      else registrations rest false
  end.

Definition counter (v : Venue) : option Z :=
  match venue_stats v with
  | PDict d =>
      match d !! "total_markets_created" with
      | Some (PInt n) => Some n
      | _ => None
      end
  | _ => None
  end.

Definition is_bound (previous : option NewMarket) : bool :=
  match previous with
  | Some _ => true
  | None => false
  end.

Lemma create_for_bound (ty : pyval) (previous : option NewMarket) :
  is_bound (create_for time now ty previous) = is_bound previous || known ty.
Proof.
  unfold create_for, known. destruct ty; try now rewrite orb_false_r.
  destruct (String.eqb s "crypto_price"); simpl; [now rewrite orb_true_r|].
  destruct (String.eqb s "ai_performance"); simpl; [now rewrite orb_true_r|].
  destruct (String.eqb s "tech_trends"); simpl; [now rewrite orb_true_r|].
  now rewrite orb_false_r.
Qed.

Lemma create_one_counter (ty : pyval) (previous : option NewMarket) (v : Venue) (n : Z) :
  counter v = Some n ->
  counter (fst (create_one time now ty previous v)) =
    Some (if is_bound previous || known ty then n + 1 else n)%Z /\
  is_bound (snd (create_one time now ty previous v)) = is_bound previous || known ty.
Proof.
  intros Hn. unfold create_one. rewrite <- create_for_bound.
  destruct (create_for time now ty previous) as [m|]; simpl; [|now split].
  unfold counter in *. unfold py_incr.
  destruct (venue_stats v) as [| | | | | |d]; try discriminate.
  destruct (d !! "total_markets_created") as [[| |k| | | |]|] eqn:Hd; try discriminate.
  injection Hn as ->. simpl. rewrite lookup_insert_eq. now split.
Qed.

Lemma dict_set_again (k : string) (m : Market) (d : list (string * Market)) :
  dict_set k m (dict_set k m d) = dict_set k m d.
Proof.
  induction d as [|[k' m'] d IH]; simpl.
  - now rewrite String.eqb_refl.
  - destruct (String.eqb k' k) eqn:E; simpl.
    + now rewrite String.eqb_refl.
    + now rewrite E, IH.
Qed.

Lemma create_for_unknown (ty : pyval) (previous : option NewMarket) :
  known ty = false -> create_for time now ty previous = previous.
Proof.
  unfold known, create_for. destruct ty; try reflexivity.
  destruct (String.eqb s "crypto_price"); [discriminate|].
  destruct (String.eqb s "ai_performance"); [discriminate|].
  destruct (String.eqb s "tech_trends"); [discriminate|reflexivity].
Qed.

(** The market that the last turn bound is in the dictionary under its
    id. *)
Definition registered (previous : option NewMarket) (v : Venue) : Prop :=
  match previous with
  | Some m => exists d, active_markets v = dict_set (market_id (market m)) (market m) d
  | None => True
  end.

Lemma create_one_registered (ty : pyval) (previous : option NewMarket) (v : Venue) :
  registered (snd (create_one time now ty previous v)) (fst (create_one time now ty previous v)).
Proof.
  unfold create_one. destruct (create_for time now ty previous) as [m|]; [|exact I].
  destruct (py_incr _ _); simpl; now exists (active_markets v).
Qed.

Lemma unknown_turns_keep_markets (unknowns : list pyval) (previous : option NewMarket)
    (v : Venue) :
  Forall (fun ty => known ty = false) unknowns ->
  registered previous v ->
  active_markets (create_new_markets_loop time now unknowns previous v) = active_markets v.
Proof.
  intros Hu. revert previous v. induction Hu as [|ty l Hty _ IH]; intros previous v Hreg; simpl.
  - reflexivity.
  - pose proof (create_one_registered ty previous v) as Hreg'.
    assert (Hsame : active_markets (fst (create_one time now ty previous v)) = active_markets v).
    { unfold create_one. rewrite (create_for_unknown ty previous Hty).
      destruct previous as [m|]; [|reflexivity].
      destruct Hreg as [d Hd].
      destruct (py_incr _ _); simpl; rewrite Hd; apply dict_set_again. }
    destruct (create_one time now ty previous v) as [v' bound]. simpl in Hreg', Hsame.
    now rewrite (IH bound v' Hreg').
Qed.

Lemma registrations_unknown (unknowns : list pyval) :
  Forall (fun ty => known ty = false) unknowns ->
  registrations unknowns true = Z.of_nat (length unknowns).
Proof.
  induction 1 as [|ty l _ _ IH]; simpl; [reflexivity|]. rewrite IH. lia.
Qed.

Lemma loop_counter (market_types : list pyval) (previous : option NewMarket) (v : Venue) (n : Z) :
  counter v = Some n ->
  counter (create_new_markets_loop time now market_types previous v) =
    Some (n + registrations market_types (is_bound previous))%Z.
Proof.
  revert previous v n. induction market_types as [|ty l IH]; intros previous v n Hn; simpl.
  - rewrite Hn. f_equal. lia.
  - destruct (create_one_counter ty previous v n Hn) as [Hc Hb].
    destruct (create_one time now ty previous v) as [v' bound]. simpl in Hc, Hb.
    rewrite (IH bound v' _ Hc), Hb.
    destruct (is_bound previous || known ty); f_equal; lia.
Qed.

(** X22. The loop of [create_new_markets] adds one to
    [total_markets_created] in every turn from the first known type on,
    unknown types included: a known type followed by unknown ones adds one
    for each of them, although the unknown ones only store the market of
    the known type again and leave [active_markets] as it was. *)
Theorem stale_market_is_counted_again (market_types : list pyval) (v : Venue) (n : Z) :
  counter v = Some n ->
  counter (create_new_markets_loop time now market_types None v) =
    Some (n + registrations market_types false)%Z /\
  forall ty unknowns,
    market_types = ty :: unknowns ->
    known ty = true ->
    Forall (fun u => known u = false) unknowns ->
    registrations market_types false = (1 + Z.of_nat (length unknowns))%Z /\
    active_markets (create_new_markets_loop time now market_types None v) =
      active_markets (create_new_markets_loop time now [ty] None v).
Proof.
  intros Hn. split; [exact (loop_counter market_types None v n Hn)|].
  intros ty unknowns -> Hty Hu. split.
  - simpl. rewrite Hty, (registrations_unknown unknowns Hu). reflexivity.
  - simpl. pose proof (create_one_registered ty None v) as Hreg.
    destruct (create_one time now ty None v) as [v' bound]. simpl in Hreg.
    now apply unknown_turns_keep_markets.
Qed.

End CreationLoop.

(** ** The properties at concrete inputs *)

Lemma consensus_counts_participants_witness :
  exists mc,
    calculate_crypto_consensus btc_predictions btc_weights 0 btc_market = Ok (Some mc) /\
    agent_count mc = Z.of_nat (length (default [] (participants btc_market))) /\
    (2 <= agent_count mc)%Z /\
    (1 <= length (retrieved btc_predictions btc_weights btc_market))%nat /\
    (Z.of_nat (length (retrieved btc_predictions btc_weights btc_market)) <= agent_count mc)%Z /\
    prediction_data mc = btc_market /\
    market_asset btc_market = Some (asset mc).
Proof.
  eexists. split.
  - vm_compute. reflexivity.
  - eapply (consensus_counts_participants btc_predictions btc_weights 0 btc_market).
    vm_compute. reflexivity.
Defined.

Lemma aggregate_keeps_order_witness :
  exists consensus_data,
    aggregate_consensus btc_predictions btc_weights 0
      [("m1"%string, thin_market); ("m2"%string, btc_market)] = Ok consensus_data /\
    sublist (map prediction_data consensus_data) (map snd [("m1"%string, thin_market); ("m2"%string, btc_market)]) /\
    Forall (fun mc => market_type (prediction_data mc) = "crypto_price"%string /\
                      calculate_crypto_consensus btc_predictions btc_weights 0
                        (prediction_data mc) = Ok (Some mc)) consensus_data.
Proof.
  eexists. split.
  - vm_compute. reflexivity.
  - eapply (aggregate_keeps_order btc_predictions btc_weights 0
              [("m1"%string, thin_market); ("m2"%string, btc_market)]).
    vm_compute. reflexivity.
Defined.

Lemma default_trading_section : trading_section get_default_config 0.70 0.025.
Proof.
  unfold trading_section. eexists _, _, _.
  split; [vm_compute; reflexivity|].
  split; [vm_compute; reflexivity|].
  split; [vm_compute; reflexivity|].
  split; vm_compute; reflexivity.
Qed.

Lemma venue_cap_never_binds_witness :
  calculate_position_size get_default_config weak_consensus
    = Ok (0.025 * confidence weak_consensus * Qabs (signal_strength weak_consensus))%Q /\
  (0 <= 0.025 * confidence weak_consensus * Qabs (signal_strength weak_consensus) <= 0.025)%Q.
Proof.
  apply (venue_cap_never_binds get_default_config 0.70 0.025 weak_consensus
           default_trading_section).
  - discriminate.
  - split; discriminate.
  - split; discriminate.
Defined.

(** A consensus of three agents that is sure of no move at all. *)
Definition flat_market_consensus : MarketConsensus :=
  {| asset := "BTC";
     signal_strength := 0;
     confidence := 0.8;
     agent_count := 3;
     prediction_data := btc_market;
     timestamp := 0 |}.

Lemma venue_zero_strength_is_short_of_size_zero_witness :
  exists sig,
    generate_signals 0 get_default_config [flat_market_consensus] = Ok [sig] /\
    ts_direction sig = short /\
    (ts_size sig == 0)%Q.
Proof.
  apply (venue_zero_strength_is_short_of_size_zero 0 get_default_config 0.70 0.025
           flat_market_consensus default_trading_section).
  - discriminate.
  - discriminate.
  - reflexivity.
Defined.

(** A venue right after [__init__], before any market was created. *)
Definition fresh_venue : Venue :=
  {| config := get_default_config;
     active_markets := [];
     trading_signals := [];
     venue_stats := PDict (<["total_markets_created" := PInt 0]> ∅) |}.

Lemma created_markets_yield_no_consensus_witness :
  unstaffed (active_markets
    (create_new_markets_loop 7 0 [PStr "crypto_price"; PStr "ai_performance"; PStr "tech_trends"]
       None fresh_venue)) /\
  aggregate_consensus btc_predictions btc_weights 0
    (active_markets
      (create_new_markets_loop 7 0 [PStr "crypto_price"; PStr "ai_performance"; PStr "tech_trends"]
         None fresh_venue)) = Ok [].
Proof.
  apply (created_markets_yield_no_consensus 7 0 btc_predictions btc_weights
           [PStr "crypto_price"; PStr "ai_performance"; PStr "tech_trends"] fresh_venue 0).
  constructor.
Defined.

Lemma stale_market_is_counted_again_witness :
  counter (create_new_markets_loop 7 0 [PStr "crypto_price"; PStr "sports"] None fresh_venue) =
    Some (0 + registrations [PStr "crypto_price"; PStr "sports"] false)%Z /\
  forall ty unknowns,
    [PStr "crypto_price"; PStr "sports"] = ty :: unknowns ->
    known ty = true ->
    Forall (fun u => known u = false) unknowns ->
    registrations [PStr "crypto_price"; PStr "sports"] false
      = (1 + Z.of_nat (length unknowns))%Z /\
    active_markets
      (create_new_markets_loop 7 0 [PStr "crypto_price"; PStr "sports"] None fresh_venue) =
    active_markets (create_new_markets_loop 7 0 [ty] None fresh_venue).
Proof.
  apply (stale_market_is_counted_again 7 0 [PStr "crypto_price"; PStr "sports"] fresh_venue 0).
  reflexivity.
Defined.

End VenueExtras.

(** * Properties of the launcher *)

Module LauncherExtras.
Import TradingIntegration BridgeProps Monitoring BridgeExtras Launcher.


Section LauncherProps.

Variable run_venue_cycle : M VenueManager.Process unit.
Variable get_current_exposure : string -> result Z.
Variable execute_trade : TradeParams -> result pyval.
Variable calculate_trade_pnl : TradeRecord -> result Q.
Variable write_metrics : MetricsData -> result unit.
Variable write_system_metrics : Z -> pyval -> PerformanceMetrics -> result unit.
Variable now : Z.

Abbreviation turn' :=
  (turn run_venue_cycle get_current_exposure execute_trade calculate_trade_pnl
     write_metrics write_system_metrics now).
Abbreviation loop' :=
  (run_main_loop run_venue_cycle get_current_exposure execute_trade calculate_trade_pnl
     write_metrics write_system_metrics now).

(** What no turn of the launcher changes in the bridge. *)
Definition untraded (b b' : Bridge) : Prop :=
  submitted b' = submitted b /\
  total_signals (performance_metrics b') = total_signals (performance_metrics b) /\
  executed_trades (performance_metrics b') = executed_trades (performance_metrics b) /\
  map rec_id (prediction_trades b') = map rec_id (prediction_trades b) /\
  venue_config b' = venue_config b /\ trading_config b' = trading_config b.

Lemma untraded_refl (b : Bridge) : untraded b b.
Proof. repeat split. Qed.

Lemma untraded_trans (b1 b2 b3 : Bridge) : untraded b1 b2 -> untraded b2 b3 -> untraded b1 b3.
Proof.
  intros (A1 & A2 & A3 & A4 & A5 & A6) (B1 & B2 & B3 & B4 & B5 & B6).
  repeat split; congruence.
Qed.

Lemma monitored_ids (l l' : list TradeRecord) :
  Forall2 monitored l l' -> map rec_id l' = map rec_id l.
Proof.
  induction 1 as [|t t' l l' Ht _ IH]; [reflexivity|].
  simpl. destruct Ht as (-> & _). now rewrite IH.
Qed.

Lemma monitor_untraded (b : Bridge) :
  untraded b (snd (monitor_prediction_trades calculate_trade_pnl write_metrics now b)).
Proof.
  destruct (monitor_spec calculate_trade_pnl write_metrics now b)
    as (r & b' & H & Hall & _ & Hsame & Hcfg & _).
  rewrite H. simpl. injection Hsame as E1 E2 _ _ _. injection Hcfg as C1 C2 C3.
  repeat split; try assumption. now apply monitored_ids.
Qed.

Lemma turn_spec (s : System) :
  exists s' pause,
    turn' false s = (VenueManager.Running, s') /\
    untraded (trading_bridge s) (trading_bridge s') /\
    cycle_count s' = (cycle_count s + 1)%Z /\
    pauses s' = pauses s ++ [pause] /\
    (pause = 60 \/ pause = 1800)%Z.
Proof.
  unfold turn, turn_body, next_cycle, get_consensus_data, update_system_metrics,
    on_venue_process, on_bridge, sleep.
  run_monad. destruct s as [p b n ps]. simpl.
  destruct (run_venue_cycle p) as [[[]|e] p']; simpl.
  2:{ eexists. exists 60%Z. split; [reflexivity|]. simpl.
      repeat split; auto. }
  pose proof (monitor_untraded b) as Hm.
  destruct (monitor_prediction_trades calculate_trade_pnl write_metrics now b) as [[[]|e] b'];
    simpl in *.
  2:{ eexists. exists 60%Z. split; [reflexivity|]. simpl. repeat split; try apply Hm; auto. }
  destruct (write_system_metrics _ _ _) as [[]|e]; simpl.
  - eexists. exists 1800%Z. split; [reflexivity|]. simpl. repeat split; try apply Hm; auto.
  - eexists. exists 60%Z. split; [reflexivity|]. simpl. repeat split; try apply Hm; auto.
Qed.

(** X23. Whatever the collaborators answer, the loop of the launcher never
    submits an order: after any number of turns the orders of the engine,
    [total_signals], [executed_trades] and the ids of the recorded trades
    of the bridge are as before. Every turn that the loop starts adds one
    to the cycle count and sleeps once, for 60 or for 1800 seconds. *)
Theorem launcher_never_trades (stops : list bool) (s : System) :
  exists state s' new,
    loop' stops s = (state, s') /\
    submitted (trading_bridge s') = submitted (trading_bridge s) /\
    total_signals (performance_metrics (trading_bridge s'))
      = total_signals (performance_metrics (trading_bridge s)) /\
    executed_trades (performance_metrics (trading_bridge s'))
      = executed_trades (performance_metrics (trading_bridge s)) /\
    map rec_id (prediction_trades (trading_bridge s'))
      = map rec_id (prediction_trades (trading_bridge s)) /\
    pauses s' = pauses s ++ new /\
    Forall (fun pause => pause = 60 \/ pause = 1800)%Z new /\
    cycle_count s' = (cycle_count s + Z.of_nat (length new))%Z /\
    (length new <= length stops)%nat.
Proof.
  assert (H : forall stops s, exists state s' new,
             loop' stops s = (state, s') /\
             untraded (trading_bridge s) (trading_bridge s') /\
             pauses s' = pauses s ++ new /\
             Forall (fun pause => pause = 60 \/ pause = 1800)%Z new /\
             cycle_count s' = (cycle_count s + Z.of_nat (length new))%Z /\
             (length new <= length stops)%nat).
  { clear. induction stops as [|stop stops IH]; intros s.
    - exists VenueManager.Running, s, []. simpl. rewrite app_nil_r.
      repeat split; auto; try lia.
    - destruct stop.
      + exists VenueManager.Stopped, s, []. simpl. rewrite app_nil_r.
        repeat split; auto; try lia.
      + destruct (turn_spec s) as (s1 & pause & Ht & Hu & Hc & Hp & Hpause).
        destruct (IH s1) as (state & s2 & new & Hl & Hu2 & Hp2 & Hall & Hc2 & Hlen).
        exists state, s2, (pause :: new). cbn [run_main_loop]. rewrite Ht, Hl.
        split; [reflexivity|]. split; [now apply untraded_trans with (trading_bridge s1)|].
        split; [now rewrite Hp2, Hp, <- app_assoc|].
        split; [now constructor|]. split; [simpl length; lia|simpl; lia]. }
  destruct (H stops s) as (state & s' & new & Hl & (U1 & U2 & U3 & U4 & _) & Hp & Hall & Hc & Hlen).
  exists state, s', new. repeat split; assumption.
Qed.

End LauncherProps.

End LauncherExtras.
